(** * Projection console: the calculator of the Pixel live-demo site

    A shallow embedding of the calculation logic of the two React sources
    ([copy_of_pixel_live_demo_site.jsx] and its near-identical sibling whose
    root component is [App]): the static city table, the metro lookup, the
    derived average conversion value and the [out] pipeline of
    [useCalculator].

    Numbers.  JavaScript numbers are modelled as real numbers: [Math.min] is
    [Rmin], [Math.max] is [Rmax], [x > 0] is the decision of [0 < x], and
    the arithmetic operators are the field operations of [R].  Rounding,
    overflow, NaN and signed zero of binary64 are therefore outside the
    model; every division of the source is guarded by a positivity test on
    its denominator, so no division by zero is ever evaluated.  For that
    reason the theorems that quantify over all states are of the kinds that
    rounding to nearest preserves on finite values: results of guards and
    of [min] and [max], equalities obtained from multiplying by 1 or adding
    0, equalities of whole outputs computed by the same operations on the
    same values, signs, and inequalities that are not strict.  Strict
    growth and identities that cancel a division against a multiplication
    are not stated; strict comparisons appear only between the values at
    explicit sample states.

    Objects.  An object literal with the keys [city], [mult], [avg] is a
    record; the fallback literal [{ mult: 1, avg: 350000 }] has no [city]
    key, which is why that field is optional.  [useMemo] only caches, so each
    memoised value is the plain function of its dependencies.  The state
    setters returned by the hook belong to the interface layer and are not
    part of the embedding. *)

From Stdlib Require Import Reals Lra Ascii String List Bool.
Import ListNotations.

Open Scope string_scope.
Open Scope R_scope.

(** ** Object shapes *)

(** A row of the city table, or the fallback object (no [city] key). *)
Module Metro.
Record t : Type := mk { city : option string; mult : R; avg : R }.
End Metro.

(** The twelve [useState] slots of [useCalculator]. *)
Module State.
Record t : Type := mk {
  city : string;
  channel : string;
  spend : R;
  pmc : R;
  gpc : R;
  apptRate : R;
  uplift : R;
  baseMeta : R;
  baseGoogle : R;
  commissionRate : R;
  closeRate : R;
  fundedCap : R
}.

(** What [setUplift u] leaves in the state container. *)
Definition setUplift (u : R) (s : t) : t :=
  mk (city s) (channel s) (spend s) (pmc s) (gpc s) (apptRate s) u
     (baseMeta s) (baseGoogle s) (commissionRate s) (closeRate s)
     (fundedCap s).

(** The initial values passed to [useState]; [city0] is
    [CITY_TABLE[0].city]. *)
Definition initial (city0 : string) : t :=
  mk city0 "meta" 1000 500 0 0.2 0.15 16 85 0.025 0.25 1300.
End State.

(** The object returned by the [out] memo. *)
Module Out.
Record t : Type := mk {
  competitorCpl : R;
  pixelCpl : R;
  funded : R;
  pixelBudget : R;
  competitorLeads : R;
  pixelLeads : R;
  competitorAppts : R;
  pixelAppts : R;
  competitorCpa : R;
  pixelCpa : R;
  competitorClosed : R;
  pixelClosed : R;
  competitorRevenue : R;
  pixelRevenue : R;
  costOfWaiting : R;
  deltaAppts : R;
  deltaRevenue : R;
  acv : R
}.
End Out.

(** The [derived] object of the hook's result. *)
Module Derived.
Record t : Type := mk { acv : R; metroAvg : R; metroMult : R }.
End Derived.

(** The hook's result, without the setters. *)
Module Hook.
Record t : Type := mk { state : State.t; derived : Derived.t; out : Out.t }.
End Hook.

(** ** Primitive operations *)

(** The JavaScript test [x > 0]. *)
Definition gt0 (x : R) : bool := if Rlt_dec 0 x then true else false.

(** The JavaScript test [c.city === city] against a string: a missing key
    reads as [undefined], which is strictly equal to no string. *)
Definition city_is (name : string) (c : Metro.t) : bool :=
  match Metro.city c with
  | Some n => String.eqb n name
  | None => false
  end.

(** ** [copy_of_pixel_live_demo_site.jsx], root component [PixelInternalConsole] *)

Module Console.

Definition CITY_TABLE : list Metro.t := [
  Metro.mk (Some "New York, NY") 1.35 700000;
  Metro.mk (Some "San Francisco, CA") 1.35 1200000;
  Metro.mk (Some "Los Angeles, CA") 1.3 900000;
  Metro.mk (Some "Miami, FL") 1.3 600000;
  Metro.mk (Some "Boston, MA") 1.3 800000;
  Metro.mk (Some "Washington, DC") 1.3 750000;
  Metro.mk (Some "San Jose, CA") 1.3 1300000;
  Metro.mk (Some "Seattle, WA") 1.25 850000;
  Metro.mk (Some "San Diego, CA") 1.25 900000;
  Metro.mk (Some "Austin, TX") 1.2 480000;
  Metro.mk (Some "Denver, CO") 1.2 550000;
  Metro.mk (Some "Chicago, IL") 1.2 360000;
  Metro.mk (Some "Philadelphia, PA") 1.2 350000;
  Metro.mk (Some "Portland, OR") 1.2 525000;
  Metro.mk (Some "Phoenix, AZ") 1.2 450000;
  Metro.mk (Some "Dallas, TX") 1.15 420000;
  Metro.mk (Some "Atlanta, GA") 1.15 400000;
  Metro.mk (Some "Tampa, FL") 1.15 380000;
  Metro.mk (Some "Charlotte, NC") 1.15 380000;
  Metro.mk (Some "Nashville, TN") 1.15 475000;
  Metro.mk (Some "Orlando, FL") 1.15 380000;
  Metro.mk (Some "Houston, TX") 1.0 330000;
  Metro.mk (Some "Minneapolis, MN") 1.0 370000;
  Metro.mk (Some "Raleigh, NC") 1.0 420000;
  Metro.mk (Some "Salt Lake City, UT") 1.0 500000;
  Metro.mk (Some "Las Vegas, NV") 1.0 430000;
  Metro.mk (Some "San Antonio, TX") 1.0 320000;
  Metro.mk (Some "Columbus, OH") 1.0 300000;
  Metro.mk (Some "Indianapolis, IN") 1.0 290000;
  Metro.mk (Some "Cincinnati, OH") 1.0 285000;
  Metro.mk (Some "Kansas City, MO") 1.0 310000;
  Metro.mk (Some "St. Louis, MO") 1.0 280000;
  Metro.mk (Some "Oklahoma City, OK") 0.9 260000;
  Metro.mk (Some "Jacksonville, FL") 0.9 325000;
  Metro.mk (Some "Cleveland, OH") 0.9 220000;
  Metro.mk (Some "Pittsburgh, PA") 0.9 275000;
  Metro.mk (Some "Milwaukee, WI") 0.9 285000;
  Metro.mk (Some "San Juan, PR") 0.85 300000
].

(** [CITY_TABLE.find((c) => c.city === city) || { mult: 1, avg: 350000 }];
    every object is truthy, so the fallback is taken exactly when [find]
    returns [undefined]. *)
Definition metro (city : string) : Metro.t :=
  match find (city_is city) CITY_TABLE with
  | Some c => c
  | None => Metro.mk None 1 350000
  end.

(** [metro.avg * commissionRate]. *)
Definition acv (s : State.t) : R :=
  Metro.avg (metro (State.city s)) * State.commissionRate s.

(** The body of the [out] memo, binding for binding. *)
Definition out (s : State.t) : Out.t :=
  let baseCpl :=
    (if String.eqb (State.channel s) "meta"
     then State.baseMeta s else State.baseGoogle s)
    * Metro.mult (metro (State.city s)) in
  let competitorCpl := baseCpl in
  let pixelCpl := competitorCpl * (1 - State.uplift s) in
  let funded :=
    Rmin (State.fundedCap s)
         (Rmax 0 (State.pmc s) + Rmax 0 (State.gpc s)) in
  let pixelBudget := Rmax 0 (State.spend s) + funded in
  let competitorLeads :=
    if gt0 (State.spend s) && gt0 competitorCpl
    then State.spend s / competitorCpl else 0 in
  let pixelLeads :=
    if gt0 pixelBudget && gt0 pixelCpl
    then pixelBudget / pixelCpl else 0 in
  let competitorAppts := competitorLeads * State.apptRate s in
  let pixelAppts := pixelLeads * State.apptRate s in
  let competitorCpa :=
    if gt0 competitorAppts then State.spend s / competitorAppts else 0 in
  let pixelCpa :=
    if gt0 pixelAppts then pixelBudget / pixelAppts else 0 in
  let competitorClosed := competitorAppts * State.closeRate s in
  let pixelClosed := pixelAppts * State.closeRate s in
  let competitorRevenue := competitorClosed * acv s in
  let pixelRevenue := pixelClosed * acv s in
  let costOfWaiting := pixelRevenue in
  Out.mk competitorCpl pixelCpl funded pixelBudget
         competitorLeads pixelLeads competitorAppts pixelAppts
         competitorCpa pixelCpa competitorClosed pixelClosed
         competitorRevenue pixelRevenue costOfWaiting
         (pixelAppts - competitorAppts)
         (pixelRevenue - competitorRevenue)
         (acv s).

(** The hook on a given content of its state slots. *)
Definition useCalculator (s : State.t) : Hook.t :=
  Hook.mk s
          (Derived.mk (acv s)
                      (Metro.avg (metro (State.city s)))
                      (Metro.mult (metro (State.city s))))
          (out s).

End Console.

(** ** The sibling source, root component [App] *)

Module App.

Definition CITY_TABLE : list Metro.t := [
  Metro.mk (Some "New York, NY") 1.35 700000;
  Metro.mk (Some "San Francisco, CA") 1.35 1200000;
  Metro.mk (Some "Los Angeles, CA") 1.3 900000;
  Metro.mk (Some "Miami, FL") 1.3 600000;
  Metro.mk (Some "Boston, MA") 1.3 800000;
  Metro.mk (Some "Washington, DC") 1.3 750000;
  Metro.mk (Some "San Jose, CA") 1.3 1300000;
  Metro.mk (Some "Seattle, WA") 1.25 850000;
  Metro.mk (Some "San Diego, CA") 1.25 900000;
  Metro.mk (Some "Austin, TX") 1.2 480000;
  Metro.mk (Some "Denver, CO") 1.2 550000;
  Metro.mk (Some "Chicago, IL") 1.2 360000;
  Metro.mk (Some "Philadelphia, PA") 1.2 350000;
  Metro.mk (Some "Portland, OR") 1.2 525000;
  Metro.mk (Some "Phoenix, AZ") 1.2 450000;
  Metro.mk (Some "Dallas, TX") 1.15 420000;
  Metro.mk (Some "Atlanta, GA") 1.15 400000;
  Metro.mk (Some "Tampa, FL") 1.15 380000;
  Metro.mk (Some "Charlotte, NC") 1.15 380000;
  Metro.mk (Some "Nashville, TN") 1.15 475000;
  Metro.mk (Some "Orlando, FL") 1.15 380000;
  Metro.mk (Some "Houston, TX") 1.0 330000;
  Metro.mk (Some "Minneapolis, MN") 1.0 370000;
  Metro.mk (Some "Raleigh, NC") 1.0 420000;
  Metro.mk (Some "Salt Lake City, UT") 1.0 500000;
  Metro.mk (Some "Las Vegas, NV") 1.0 430000;
  Metro.mk (Some "San Antonio, TX") 1.0 320000;
  Metro.mk (Some "Columbus, OH") 1.0 300000;
  Metro.mk (Some "Indianapolis, IN") 1.0 290000;
  Metro.mk (Some "Cincinnati, OH") 1.0 285000;
  Metro.mk (Some "Kansas City, MO") 1.0 310000;
  Metro.mk (Some "St. Louis, MO") 1.0 280000;
  Metro.mk (Some "Oklahoma City, OK") 0.9 260000;
  Metro.mk (Some "Jacksonville, FL") 0.9 325000;
  Metro.mk (Some "Cleveland, OH") 0.9 220000;
  Metro.mk (Some "Pittsburgh, PA") 0.9 275000;
  Metro.mk (Some "Milwaukee, WI") 0.9 285000;
  Metro.mk (Some "San Juan, PR") 0.85 300000
].

(** [CITY_TABLE.find((c) => c.city === city) || { mult: 1, avg: 350000 }];
    every object is truthy, so the fallback is taken exactly when [find]
    returns [undefined]. *)
Definition metro (city : string) : Metro.t :=
  match find (city_is city) CITY_TABLE with
  | Some c => c
  | None => Metro.mk None 1 350000
  end.

(** [metro.avg * commissionRate]. *)
Definition acv (s : State.t) : R :=
  Metro.avg (metro (State.city s)) * State.commissionRate s.

(** The body of the [out] memo, binding for binding. *)
Definition out (s : State.t) : Out.t :=
  let baseCpl :=
    (if String.eqb (State.channel s) "meta"
     then State.baseMeta s else State.baseGoogle s)
    * Metro.mult (metro (State.city s)) in
  let competitorCpl := baseCpl in
  let pixelCpl := competitorCpl * (1 - State.uplift s) in
  let funded :=
    Rmin (State.fundedCap s)
         (Rmax 0 (State.pmc s) + Rmax 0 (State.gpc s)) in
  let pixelBudget := Rmax 0 (State.spend s) + funded in
  let competitorLeads :=
    if gt0 (State.spend s) && gt0 competitorCpl
    then State.spend s / competitorCpl else 0 in
  let pixelLeads :=
    if gt0 pixelBudget && gt0 pixelCpl
    then pixelBudget / pixelCpl else 0 in
  let competitorAppts := competitorLeads * State.apptRate s in
  let pixelAppts := pixelLeads * State.apptRate s in
  let competitorCpa :=
    if gt0 competitorAppts then State.spend s / competitorAppts else 0 in
  let pixelCpa :=
    if gt0 pixelAppts then pixelBudget / pixelAppts else 0 in
  let competitorClosed := competitorAppts * State.closeRate s in
  let pixelClosed := pixelAppts * State.closeRate s in
  let competitorRevenue := competitorClosed * acv s in
  let pixelRevenue := pixelClosed * acv s in
  let costOfWaiting := pixelRevenue in
  Out.mk competitorCpl pixelCpl funded pixelBudget
         competitorLeads pixelLeads competitorAppts pixelAppts
         competitorCpa pixelCpa competitorClosed pixelClosed
         competitorRevenue pixelRevenue costOfWaiting
         (pixelAppts - competitorAppts)
         (pixelRevenue - competitorRevenue)
         (acv s).

(** The hook on a given content of its state slots. *)
Definition useCalculator (s : State.t) : Hook.t :=
  Hook.mk s
          (Derived.mk (acv s)
                      (Metro.avg (metro (State.city s)))
                      (Metro.mult (metro (State.city s))))
          (out s).

End App.

(** ** The market table as the specification enumerates it *)

Module Spec.

(** The enumeration of the external-interfaces section, entry by entry:
    name, cost multiplier, reference asset price. *)
Definition MARKET_TABLE : list Metro.t := [
  Metro.mk (Some "New York NY") 1.35 700000;
  Metro.mk (Some "San Francisco CA") 1.35 1200000;
  Metro.mk (Some "Los Angeles CA") 1.3 900000;
  Metro.mk (Some "Miami FL") 1.3 600000;
  Metro.mk (Some "Boston MA") 1.3 800000;
  Metro.mk (Some "Washington DC") 1.3 750000;
  Metro.mk (Some "San Jose CA") 1.3 1300000;
  Metro.mk (Some "Seattle WA") 1.25 850000;
  Metro.mk (Some "San Diego CA") 1.25 900000;
  Metro.mk (Some "Austin TX") 1.2 480000;
  Metro.mk (Some "Denver CO") 1.2 550000;
  Metro.mk (Some "Chicago IL") 1.2 360000;
  Metro.mk (Some "Philadelphia PA") 1.2 350000;
  Metro.mk (Some "Portland OR") 1.2 525000;
  Metro.mk (Some "Phoenix AZ") 1.2 450000;
  Metro.mk (Some "Dallas TX") 1.15 420000;
  Metro.mk (Some "Atlanta GA") 1.15 400000;
  Metro.mk (Some "Tampa FL") 1.15 380000;
  Metro.mk (Some "Charlotte NC") 1.15 380000;
  Metro.mk (Some "Nashville TN") 1.15 475000;
  Metro.mk (Some "Orlando FL") 1.15 380000;
  Metro.mk (Some "Houston TX") 1.0 330000;
  Metro.mk (Some "Minneapolis MN") 1.0 370000;
  Metro.mk (Some "Raleigh NC") 1.0 420000;
  Metro.mk (Some "Salt Lake City UT") 1.0 500000;
  Metro.mk (Some "Las Vegas NV") 1.0 430000;
  Metro.mk (Some "San Antonio TX") 1.0 320000;
  Metro.mk (Some "Columbus OH") 1.0 300000;
  Metro.mk (Some "Indianapolis IN") 1.0 290000;
  Metro.mk (Some "Cincinnati OH") 1.0 285000;
  Metro.mk (Some "Kansas City MO") 1.0 310000;
  Metro.mk (Some "St. Louis MO") 1.0 280000;
  Metro.mk (Some "Oklahoma City OK") 0.9 260000;
  Metro.mk (Some "Jacksonville FL") 0.9 325000;
  Metro.mk (Some "Cleveland OH") 0.9 220000;
  Metro.mk (Some "Pittsburgh PA") 0.9 275000;
  Metro.mk (Some "Milwaukee WI") 0.9 285000;
  Metro.mk (Some "San Juan PR") 0.85 300000
].

End Spec.

(** ** Naming conventions of the specification *)

(** The specification lists each market as metro name, space, state code;
    the sources write a comma before the state code.  [comma_before_state]
    inserts that comma before the last space of a name. *)
Fixpoint has_space (s : string) : bool :=
  match s with
  | EmptyString => false
  | String c r => Ascii.eqb c " "%char || has_space r
  end.

Fixpoint comma_before_state (s : string) : string :=
  match s with
  | EmptyString => EmptyString
  | String c r =>
      if Ascii.eqb c " "%char && negb (has_space r)
      then String ","%char (String c r)
      else String c (comma_before_state r)
  end.

Definition with_comma (m : Metro.t) : Metro.t :=
  Metro.mk (option_map comma_before_state (Metro.city m))
           (Metro.mult m) (Metro.avg m).

(** Pairwise distinctness of a list of keys, as a boolean check. *)
Fixpoint distinct_keys (l : list (option string)) : bool :=
  match l with
  | [] => true
  | k :: r =>
      negb (existsb (fun k' =>
                       match k, k' with
                       | Some a, Some b => String.eqb a b
                       | None, None => true
                       | _, _ => false
                       end) r)
      && distinct_keys r
  end.

(** ** Sample states *)

(** The state right after mounting. *)
Definition st_initial : State.t := State.initial "New York, NY".

(** The initial state with a negative funded cap typed in. *)
Definition st_negative_cap : State.t :=
  State.mk "New York, NY" "meta" 1000 500 0 0.2 0.15 16 85 0.025 0.25 (-5).

(** The initial state with nothing spent and no credit. *)
Definition st_no_money : State.t :=
  State.mk "New York, NY" "meta" 0 0 0 0.2 0.15 16 85 0.025 0.25 1300.

(** The initial state with an appointment rate of zero. *)
Definition st_no_appts : State.t :=
  State.mk "New York, NY" "meta" 1000 500 0 0 0.15 16 85 0.025 0.25 1300.

(** The initial state with a negative baseline cost for the first
    channel. *)
Definition st_negative_base : State.t :=
  State.mk "New York, NY" "meta" 1000 500 0 0.2 0.15 (-16) 85 0.025 0.25 1300.

(** The initial state with an uplift of 150 percent. *)
Definition st_uplift_150 : State.t := State.setUplift 1.5 st_initial.

(** The initial state with a channel value the selector does not offer. *)
Definition st_other_channel : State.t :=
  State.mk "New York, NY" "tiktok" 1000 500 0 0.2 0.15 16 85 0.025 0.25 1300.

(** ** State setters *)

(** What the other setters of the hook leave in the state container. *)
Module Slots.
Definition setSpend (x : R) (s : State.t) : State.t :=
  State.mk (State.city s) (State.channel s) x (State.pmc s) (State.gpc s)
           (State.apptRate s) (State.uplift s) (State.baseMeta s)
           (State.baseGoogle s) (State.commissionRate s) (State.closeRate s)
           (State.fundedCap s).

Definition setPmc (x : R) (s : State.t) : State.t :=
  State.mk (State.city s) (State.channel s) (State.spend s) x (State.gpc s)
           (State.apptRate s) (State.uplift s) (State.baseMeta s)
           (State.baseGoogle s) (State.commissionRate s) (State.closeRate s)
           (State.fundedCap s).

Definition setGpc (x : R) (s : State.t) : State.t :=
  State.mk (State.city s) (State.channel s) (State.spend s) (State.pmc s) x
           (State.apptRate s) (State.uplift s) (State.baseMeta s)
           (State.baseGoogle s) (State.commissionRate s) (State.closeRate s)
           (State.fundedCap s).

Definition setFundedCap (x : R) (s : State.t) : State.t :=
  State.mk (State.city s) (State.channel s) (State.spend s) (State.pmc s)
           (State.gpc s) (State.apptRate s) (State.uplift s)
           (State.baseMeta s) (State.baseGoogle s) (State.commissionRate s)
           (State.closeRate s) x.
End Slots.

(** ** Rendering choices of the [Calculator] panel *)

(** JavaScript truthiness of a number: only zero is falsy among the reals. *)
Definition truthy (x : R) : bool := if Req_dec_T x 0 then false else true.

(** [Math.round]: the nearest integer, halves going up. *)
Definition Math_round (y : R) : R := IZR (Int_part (y + / 2)).

(** The value of a cost-per-appointment cell,
    [cpa ? money(cpa) : dash]: [None] stands for the dash, [Some a] for the
    text that [money] makes of the amount [a]. *)
Definition cpa_cell (cpa : R) : option R :=
  if truthy cpa then Some cpa else None.

(** The sign prefix of the appointment delta,
    [deltaAppts >= 0 ? "+" : ""]. *)
Definition delta_prefix (deltaAppts : R) : string :=
  if Rle_dec 0 deltaAppts then "+" else "".

(** More sample states. *)

(** Client spend 1000 at a baseline of 20, no credits, no uplift. *)
Definition st_plain : State.t :=
  State.mk "Houston, TX" "meta" 1000 0 0 0.2 0 20 85 0.025 0.25 1300.

(** Credits of 1000 and 800 against the cap of 1300. *)
Definition st_over_cap : State.t :=
  State.mk "New York, NY" "meta" 1000 1000 800 0.2 0.15 16 85 0.025 0.25 1300.

(** ** The test harness of [PixelInternalConsole] *)

(** The JavaScript comparison [x > y] and the strict equality [x === y] of
    two numbers. *)
Definition gt (x y : R) : bool := if Rlt_dec y x then true else false.
Definition strict_eq (x y : R) : bool := if Req_dec_T x y then true else false.

(** The effect run once on mount: nine test cases, each a list of
    [console.assert(condition, message)] calls. *)
Module Harness.

(** [approx = (a, b, eps = 1e-6) => Math.abs(a - b) < eps]. *)
Definition approx (a b eps : R) : bool :=
  if Rlt_dec (Rabs (a - b)) eps then true else false.

(** The default of the third parameter; no call passes another value. *)
Definition eps : R := 1e-6.

Definition TC1 : list (bool * string) :=
  let spend := 1000 in
  let rate := 0.2 in
  let uplift := 0.15 in
  let baseMeta := 10 in
  let mult := 1.35 in
  let competitorCpl := baseMeta * mult in
  let pixelCpl := competitorCpl * (1 - uplift) in
  let competitorLeads := spend / competitorCpl in
  let pixelLeads := spend / pixelCpl in
  let competitorAppts := competitorLeads * rate in
  let pixelAppts := pixelLeads * rate in
  [ (approx (Math_round (competitorCpl * 1000) / 1000) 13.5 eps,
     "TC1 competitorCpl");
    (approx (Math_round (pixelCpl * 1000) / 1000) 11.475 eps,
     "TC1 pixelCpl");
    (approx (Math_round (competitorAppts * 1000) / 1000) 14.815 eps,
     "TC1 competitorAppts");
    (approx (Math_round (pixelAppts * 1000) / 1000) 17.434 eps,
     "TC1 pixelAppts") ].

Definition TC2 : list (bool * string) :=
  let spend := 1500 in
  let funded := 500 in
  let rate := 0.27 in
  let uplift := 0.3 in
  let baseGoogle := 100 in
  let mult := 1.0 in
  let competitorCpl := baseGoogle * mult in
  let pixelCpl := competitorCpl * (1 - uplift) in
  let competitorLeads := spend / competitorCpl in
  let pixelLeads := (spend + funded) / pixelCpl in
  let competitorAppts := competitorLeads * rate in
  let pixelAppts := pixelLeads * rate in
  [ (approx competitorLeads 15 eps, "TC2 competitorLeads");
    (approx (Math_round (pixelLeads * 10000) / 10000) 28.5714 eps,
     "TC2 pixelLeads");
    (approx (Math_round (competitorAppts * 100) / 100) 4.05 eps,
     "TC2 competitorAppts");
    (approx (Math_round (pixelAppts * 10000) / 10000) 7.7143 eps,
     "TC2 pixelAppts") ].

Definition TC3 : list (bool * string) :=
  let spend := 0 in
  let cpl := 50 in
  let rate := 0.2 in
  let leads := spend / cpl in
  let appts := leads * rate in
  let cpa := if gt0 appts then spend / appts else 0 in
  [ (approx leads 0 eps, "TC3 leads");
    (approx appts 0 eps, "TC3 appts");
    (approx cpa 0 eps, "TC3 cpa") ].

Definition TC4 : list (bool * string) :=
  let pmc := 1000 in
  let gpc := 800 in
  let cap := 1300 in
  let effectiveFunded := Rmin cap (pmc + gpc) in
  [ (strict_eq effectiveFunded 1300, "TC4 funded cap") ].

Definition TC5 : list (bool * string) :=
  let spend := 1000 in
  let baseCpl := 20 in
  let mult := 1.0 in
  let uplift := 0.3 in
  let rate := 0.2 in
  let competitorCpl := baseCpl * mult in
  let pixelCpl := competitorCpl * (1 - uplift) in
  let competitorAppts := (spend / competitorCpl) * rate in
  let pixelAppts := (spend / pixelCpl) * rate in
  [ (gt pixelAppts competitorAppts, "TC5 pixel appts > competitor appts") ].

Definition TC6 : list (bool * string) :=
  let pmc := -200 in
  let gpc := -50 in
  let cap := 1300 in
  let funded := Rmin cap (Rmax 0 pmc + Rmax 0 gpc) in
  [ (strict_eq funded 0, "TC6 funded clamps non-negative") ].

Definition TC7 : list (bool * string) :=
  let appts := 10 in
  let close := 0.3 in
  let acv := 2500 in
  let pixelRevenue := appts * close * acv in
  let costOfWaiting := pixelRevenue in
  [ (strict_eq costOfWaiting pixelRevenue, "TC7 waiting == pixel revenue") ].

Definition TC8 : list (bool * string) :=
  let metroAvg := 400000 in
  let commission := 0.025 in
  let acv := metroAvg * commission in
  [ (strict_eq acv 10000, "TC8 ACV link metro × commission") ].

Definition TC9 : list (bool * string) :=
  let metroAvg := 500000 in
  let commission := 0.03 in
  let acv := metroAvg * commission in
  [ (strict_eq acv 15000, "TC9 ACV reflects commission change") ].

(** All assertions, in the order the effect runs them. *)
Definition assertions : list (bool * string) :=
  (TC1 ++ TC2 ++ TC3 ++ TC4 ++ TC5 ++ TC6 ++ TC7 ++ TC8 ++ TC9)%list.

(** The messages that [console.assert] writes: those of the assertions
    whose condition is false. *)
Definition failed : list string :=
  map snd (filter (fun a => negb (fst a)) assertions).

End Harness.

(** * Properties *)

(** ** The positivity test *)

Lemma gt0_true (x : R) : 0 < x -> gt0 x = true.
Proof. intros H. unfold gt0. destruct (Rlt_dec 0 x); [reflexivity | contradiction]. Qed.

Lemma gt0_false (x : R) : x <= 0 -> gt0 x = false.
Proof. intros H. unfold gt0. destruct (Rlt_dec 0 x); [lra | reflexivity]. Qed.

Lemma gt0_spec (x : R) : gt0 x = true <-> 0 < x.
Proof.
  split; [| apply gt0_true].
  unfold gt0. destruct (Rlt_dec 0 x); [trivial | discriminate].
Qed.

(** The lookup is kept folded while the pipeline is unfolded. *)
Arguments Console.metro : simpl never.
Arguments App.metro : simpl never.

(** ** The two sources agree *)

Lemma App_metro_eq (city : string) : App.metro city = Console.metro city.
Proof. reflexivity. Qed.

Lemma App_out_eq (s : State.t) : App.out s = Console.out s.
Proof. reflexivity. Qed.

(** ** Unfolding equations of the pipeline *)

Section Equations.
Variable s : State.t.
Local Notation "'o'" := (Console.out s).

Lemma competitorCpl_eq :
  Out.competitorCpl o =
  (if String.eqb (State.channel s) "meta"
   then State.baseMeta s else State.baseGoogle s)
  * Metro.mult (Console.metro (State.city s)).
Proof. reflexivity. Qed.

Lemma pixelCpl_eq :
  Out.pixelCpl o = Out.competitorCpl o * (1 - State.uplift s).
Proof. reflexivity. Qed.

Lemma funded_eq :
  Out.funded o =
  Rmin (State.fundedCap s) (Rmax 0 (State.pmc s) + Rmax 0 (State.gpc s)).
Proof. reflexivity. Qed.

Lemma pixelBudget_eq :
  Out.pixelBudget o = Rmax 0 (State.spend s) + Out.funded o.
Proof. reflexivity. Qed.

Lemma competitorLeads_eq :
  Out.competitorLeads o =
  if gt0 (State.spend s) && gt0 (Out.competitorCpl o)
  then State.spend s / Out.competitorCpl o else 0.
Proof. reflexivity. Qed.

Lemma pixelLeads_eq :
  Out.pixelLeads o =
  if gt0 (Out.pixelBudget o) && gt0 (Out.pixelCpl o)
  then Out.pixelBudget o / Out.pixelCpl o else 0.
Proof. reflexivity. Qed.

Lemma competitorAppts_eq :
  Out.competitorAppts o = Out.competitorLeads o * State.apptRate s.
Proof. reflexivity. Qed.

Lemma pixelAppts_eq :
  Out.pixelAppts o = Out.pixelLeads o * State.apptRate s.
Proof. reflexivity. Qed.

Lemma competitorCpa_eq :
  Out.competitorCpa o =
  if gt0 (Out.competitorAppts o)
  then State.spend s / Out.competitorAppts o else 0.
Proof. reflexivity. Qed.

Lemma pixelCpa_eq :
  Out.pixelCpa o =
  if gt0 (Out.pixelAppts o)
  then Out.pixelBudget o / Out.pixelAppts o else 0.
Proof. reflexivity. Qed.

Lemma pixelClosed_eq :
  Out.pixelClosed o = Out.pixelAppts o * State.closeRate s.
Proof. reflexivity. Qed.

Lemma pixelRevenue_eq :
  Out.pixelRevenue o = Out.pixelClosed o * Out.acv o.
Proof. reflexivity. Qed.

Lemma acv_eq :
  Out.acv o =
  Metro.avg (Console.metro (State.city s)) * State.commissionRate s.
Proof. reflexivity. Qed.
End Equations.

(** What [setUplift] does not touch. *)
Lemma setUplift_competitorCpl (u : R) (s : State.t) :
  Out.competitorCpl (Console.out (State.setUplift u s)) =
  Out.competitorCpl (Console.out s).
Proof. reflexivity. Qed.

Lemma setUplift_pixelBudget (u : R) (s : State.t) :
  Out.pixelBudget (Console.out (State.setUplift u s)) =
  Out.pixelBudget (Console.out s).
Proof. reflexivity. Qed.

Lemma setUplift_acv (u : R) (s : State.t) :
  Out.acv (Console.out (State.setUplift u s)) = Out.acv (Console.out s).
Proof. reflexivity. Qed.

(** ** Applied credit *)

Lemma clamped_sum_nonneg (a b : R) : 0 <= Rmax 0 a + Rmax 0 b.
Proof.
  pose proof (Rmax_l 0 a). pose proof (Rmax_l 0 b). lra.
Qed.

(** C1 (as amended).  In either source the applied credit [funded] is
    [min(fundedCap, max(0, pmc) + max(0, gpc))]: both credits are clamped at
    zero before they are added and the cap is applied once to the sum.  It
    never exceeds [fundedCap], for any credits and any cap, and it is never
    below zero provided the cap itself is not negative. *)
Theorem applied_credit_bounds (s : State.t) (o : Out.t) :
  o = Console.out s \/ o = App.out s ->
  Out.funded o =
    Rmin (State.fundedCap s) (Rmax 0 (State.pmc s) + Rmax 0 (State.gpc s))
  /\ Out.funded o <= State.fundedCap s
  /\ (0 <= State.fundedCap s -> 0 <= Out.funded o).
Proof.
  intros Ho.
  assert (E : o = Console.out s) by (destruct Ho as [-> | ->]; reflexivity).
  subst o. rewrite funded_eq.
  split; [reflexivity |].
  split.
  - apply Rmin_l.
  - intros Hcap. apply Rmin_glb; [exact Hcap | apply clamped_sum_nonneg].
Qed.

Lemma applied_credit_bounds_witness :
  0 <= Out.funded (Console.out st_initial) <= State.fundedCap st_initial.
Proof.
  destruct (applied_credit_bounds st_initial (Console.out st_initial))
    as (_ & Hle & Hge).
  - left. reflexivity.
  - split; [apply Hge; simpl; lra | exact Hle].
Defined.

(** With a negative cap the applied credit is the cap, hence negative:
    credits 500 and 0 under a cap of -5 give -5. *)
Lemma applied_credit_negative_cap :
  Out.funded (Console.out st_negative_cap) = -5
  /\ ~ 0 <= Out.funded (Console.out st_negative_cap).
Proof.
  assert (E : Out.funded (Console.out st_negative_cap) = -5).
  { rewrite funded_eq. simpl.
    rewrite Rmin_left; [reflexivity |].
    pose proof (clamped_sum_nonneg 500 0). lra. }
  split; [exact E | rewrite E; lra].
Qed.

(** ** Cost per lead *)

(** C2.  The competitor cost per lead is the baseline cost selected by the
    channel times the metro multiplier; the platform cost per lead is the
    competitor one times [1 - uplift]; with an uplift of zero the two are
    equal. *)
Theorem platform_cpl_relation (s : State.t) :
  Out.competitorCpl (Console.out s) =
    (if String.eqb (State.channel s) "meta"
     then State.baseMeta s else State.baseGoogle s)
    * Metro.mult (Console.metro (State.city s))
  /\ Out.pixelCpl (Console.out s) =
     Out.competitorCpl (Console.out s) * (1 - State.uplift s)
  /\ (State.uplift s = 0 ->
      Out.pixelCpl (Console.out s) = Out.competitorCpl (Console.out s)).
Proof.
  split; [apply competitorCpl_eq |].
  split; [apply pixelCpl_eq |].
  intros Hu. rewrite pixelCpl_eq, Hu. ring.
Qed.

Lemma platform_cpl_relation_witness :
  Out.pixelCpl (Console.out (State.setUplift 0 st_initial)) =
  Out.competitorCpl (Console.out (State.setUplift 0 st_initial)).
Proof.
  apply (platform_cpl_relation (State.setUplift 0 st_initial)).
  reflexivity.
Defined.

(** ** Guards against division hazards *)

Lemma competitorLeads_guard (s : State.t) :
  State.spend s <= 0 \/ Out.competitorCpl (Console.out s) <= 0 ->
  Out.competitorLeads (Console.out s) = 0.
Proof.
  intros H. rewrite competitorLeads_eq.
  destruct H as [H | H]; rewrite (gt0_false _ H).
  - reflexivity.
  - rewrite andb_false_r. reflexivity.
Qed.

Lemma pixelLeads_guard (s : State.t) :
  Out.pixelBudget (Console.out s) <= 0 \/ Out.pixelCpl (Console.out s) <= 0 ->
  Out.pixelLeads (Console.out s) = 0.
Proof.
  intros H. rewrite pixelLeads_eq.
  destruct H as [H | H]; rewrite (gt0_false _ H).
  - reflexivity.
  - rewrite andb_false_r. reflexivity.
Qed.

Lemma pixelLeads_positive (s : State.t) :
  0 < Out.pixelBudget (Console.out s) ->
  0 < Out.pixelCpl (Console.out s) ->
  Out.pixelLeads (Console.out s) =
  Out.pixelBudget (Console.out s) / Out.pixelCpl (Console.out s).
Proof.
  intros Hb Hc. rewrite pixelLeads_eq.
  rewrite (gt0_true _ Hb), (gt0_true _ Hc). reflexivity.
Qed.

Lemma pixelLeads_nonneg (s : State.t) : 0 <= Out.pixelLeads (Console.out s).
Proof.
  rewrite pixelLeads_eq.
  destruct (gt0 (Out.pixelBudget (Console.out s))) eqn:Hb;
    destruct (gt0 (Out.pixelCpl (Console.out s))) eqn:Hc;
    simpl; try lra.
  apply gt0_spec in Hb. apply gt0_spec in Hc.
  apply Rlt_le. apply Rdiv_lt_0_compat; assumption.
Qed.

(** C3.  With a client spend of zero the competitor leads, appointments
    and cost per appointment are all the sentinel 0, whatever the cost per
    lead is.  More generally a spend or a competitor cost per lead that is
    zero or negative gives zero competitor leads, and a platform budget or
    platform cost per lead that is zero or negative gives zero platform
    leads. *)
Theorem zero_spend_sentinels (s : State.t) :
  (State.spend s = 0 ->
   Out.competitorLeads (Console.out s) = 0
   /\ Out.competitorAppts (Console.out s) = 0
   /\ Out.competitorCpa (Console.out s) = 0)
  /\ (State.spend s <= 0 \/ Out.competitorCpl (Console.out s) <= 0 ->
      Out.competitorLeads (Console.out s) = 0)
  /\ (Out.pixelBudget (Console.out s) <= 0
      \/ Out.pixelCpl (Console.out s) <= 0 ->
      Out.pixelLeads (Console.out s) = 0).
Proof.
  split; [| split; [apply competitorLeads_guard | apply pixelLeads_guard]].
  intros Hs.
  assert (HL : Out.competitorLeads (Console.out s) = 0).
  { apply competitorLeads_guard. left. lra. }
  assert (HA : Out.competitorAppts (Console.out s) = 0).
  { rewrite competitorAppts_eq, HL. ring. }
  split; [exact HL | split; [exact HA |]].
  rewrite competitorCpa_eq, HA.
  rewrite gt0_false by lra. reflexivity.
Qed.

Lemma zero_spend_sentinels_witness :
  (Out.competitorLeads (Console.out st_no_money) = 0
   /\ Out.competitorAppts (Console.out st_no_money) = 0
   /\ Out.competitorCpa (Console.out st_no_money) = 0)
  /\ Out.competitorLeads (Console.out st_no_money) = 0
  /\ Out.pixelLeads (Console.out st_no_money) = 0.
Proof.
  destruct (zero_spend_sentinels st_no_money) as (H1 & H2 & H3).
  split; [apply H1; reflexivity |].
  split.
  - apply H2. left. simpl. lra.
  - apply H3. left. rewrite pixelBudget_eq, funded_eq. simpl.
    unfold Rmin, Rmax. repeat destruct Rle_dec; lra.
Defined.

(** ** Cost of waiting *)

(** C5.  The [costOfWaiting] field of the output is the platform revenue
    [pixelRevenue] itself, for every state. *)
Theorem cost_of_waiting_is_platform_revenue (s : State.t) :
  Out.costOfWaiting (Console.out s) = Out.pixelRevenue (Console.out s).
Proof. reflexivity. Qed.

(** ** Concrete evaluations *)

Lemma metro_new_york :
  Console.metro "New York, NY" = Metro.mk (Some "New York, NY") 1.35 700000.
Proof. reflexivity. Qed.

(** Unfolds the pipeline at a concrete state and decides the remaining
    comparisons between numerals. *)
Ltac eval_pipeline :=
  repeat first
    [ rewrite pixelRevenue_eq | rewrite pixelClosed_eq
    | rewrite pixelAppts_eq | rewrite pixelBudget_eq | rewrite funded_eq
    | rewrite pixelCpl_eq | rewrite competitorCpl_eq | rewrite acv_eq ];
  simpl; rewrite ?metro_new_york; simpl;
  unfold Rmin, Rmax; repeat destruct Rle_dec; try lra.

(** ** Monotonicity in the uplift *)

Lemma pixelLeads_uplift_le (s : State.t) (u1 u2 : R) :
  u1 < u2 ->
  0 < Out.competitorCpl (Console.out (State.setUplift u1 s)) ->
  0 < Out.pixelCpl (Console.out (State.setUplift u1 s)) ->
  0 < Out.pixelCpl (Console.out (State.setUplift u2 s)) ->
  0 < Out.pixelBudget (Console.out (State.setUplift u1 s)) ->
  Out.pixelLeads (Console.out (State.setUplift u1 s))
  <= Out.pixelLeads (Console.out (State.setUplift u2 s)).
Proof.
  intros Hu Hc Hp1 Hp2 Hb.
  assert (Hb2 : 0 < Out.pixelBudget (Console.out (State.setUplift u2 s))).
  { rewrite setUplift_pixelBudget.
    rewrite setUplift_pixelBudget in Hb. exact Hb. }
  rewrite (pixelLeads_positive _ Hb Hp1), (pixelLeads_positive _ Hb2 Hp2).
  rewrite !setUplift_pixelBudget in *.
  unfold Rdiv. apply Rmult_le_compat_l; [lra |].
  apply Rinv_le_contravar; [exact Hp2 |].
  rewrite !pixelCpl_eq, !setUplift_competitorCpl in *.
  simpl State.uplift.
  apply Rmult_le_compat_l; lra.
Qed.

(** C6 (as amended).  Let two states differ only in the uplift, [u1 < u2].
    If the competitor cost per lead is positive, the platform cost per lead
    is positive at both uplifts, the platform budget is positive and the
    appointment rate is not negative, then the platform appointments at
    [u2] are at least those at [u1]; if moreover the close rate and the
    average conversion value are not negative, the same holds of the
    platform revenue.  Raising the uplift never lowers either; it need not
    raise them. *)
Theorem uplift_never_lowers (s : State.t) (u1 u2 : R) :
  u1 < u2 ->
  0 < Out.competitorCpl (Console.out (State.setUplift u1 s)) ->
  0 < Out.pixelCpl (Console.out (State.setUplift u1 s)) ->
  0 < Out.pixelCpl (Console.out (State.setUplift u2 s)) ->
  0 < Out.pixelBudget (Console.out (State.setUplift u1 s)) ->
  0 <= State.apptRate s ->
  Out.pixelAppts (Console.out (State.setUplift u1 s))
  <= Out.pixelAppts (Console.out (State.setUplift u2 s))
  /\ (0 <= State.closeRate s ->
      0 <= Out.acv (Console.out (State.setUplift u1 s)) ->
      Out.pixelRevenue (Console.out (State.setUplift u1 s))
      <= Out.pixelRevenue (Console.out (State.setUplift u2 s))).
Proof.
  intros Hu Hc Hp1 Hp2 Hb Hr.
  pose proof (pixelLeads_uplift_le s u1 u2 Hu Hc Hp1 Hp2 Hb) as HL.
  assert (HA : Out.pixelAppts (Console.out (State.setUplift u1 s))
               <= Out.pixelAppts (Console.out (State.setUplift u2 s))).
  { rewrite !pixelAppts_eq. simpl State.apptRate.
    apply Rmult_le_compat_r; assumption. }
  split; [exact HA |].
  intros Hk Hv.
  rewrite !pixelRevenue_eq, !pixelClosed_eq.
  rewrite !setUplift_acv in *. simpl State.closeRate.
  apply Rmult_le_compat_r; [exact Hv |].
  apply Rmult_le_compat_r; assumption.
Qed.

Lemma uplift_never_lowers_witness :
  Out.pixelAppts (Console.out (State.setUplift 0.15 st_initial))
  <= Out.pixelAppts (Console.out (State.setUplift 0.3 st_initial))
  /\ Out.pixelRevenue (Console.out (State.setUplift 0.15 st_initial))
     <= Out.pixelRevenue (Console.out (State.setUplift 0.3 st_initial)).
Proof.
  destruct (uplift_never_lowers st_initial 0.15 0.3) as (HA & HR).
  - lra.
  - eval_pipeline.
  - eval_pipeline.
  - eval_pipeline.
  - eval_pipeline.
  - simpl. lra.
  - split; [exact HA | apply HR].
    + simpl. lra.
    + eval_pipeline.
Defined.

(** With an appointment rate of zero the hypotheses of the claim as written
    hold (positive platform cost per lead at both uplifts, positive
    platform budget) and yet raising the uplift from 0.15 to 0.3 leaves
    both the platform appointments and the platform revenue at 0. *)
Lemma uplift_not_monotone_zero_rate :
  0.15 < 0.3
  /\ 0 < Out.pixelCpl (Console.out (State.setUplift 0.15 st_no_appts))
  /\ 0 < Out.pixelCpl (Console.out (State.setUplift 0.3 st_no_appts))
  /\ 0 < Out.pixelBudget (Console.out (State.setUplift 0.15 st_no_appts))
  /\ 0 < Out.pixelBudget (Console.out (State.setUplift 0.3 st_no_appts))
  /\ Out.pixelAppts (Console.out (State.setUplift 0.15 st_no_appts)) = 0
  /\ Out.pixelAppts (Console.out (State.setUplift 0.3 st_no_appts)) = 0
  /\ ~ (Out.pixelAppts (Console.out (State.setUplift 0.15 st_no_appts))
        < Out.pixelAppts (Console.out (State.setUplift 0.3 st_no_appts)))
  /\ ~ (Out.pixelRevenue (Console.out (State.setUplift 0.15 st_no_appts))
        < Out.pixelRevenue (Console.out (State.setUplift 0.3 st_no_appts))).
Proof.
  assert (A : forall u,
             Out.pixelAppts (Console.out (State.setUplift u st_no_appts)) = 0).
  { intros u. rewrite pixelAppts_eq. simpl State.apptRate. ring. }
  assert (V : forall u,
             Out.pixelRevenue (Console.out (State.setUplift u st_no_appts))
             = 0).
  { intros u. rewrite pixelRevenue_eq, pixelClosed_eq, A. ring. }
  split; [lra |].
  split; [eval_pipeline |].
  split; [eval_pipeline |].
  split; [eval_pipeline |].
  split; [eval_pipeline |].
  split; [apply A |].
  split; [apply A |].
  rewrite !A, !V. split; lra.
Qed.

(** The positivity of the competitor cost per lead cannot be dropped
    either: with a baseline cost of -16 the platform cost per lead is
    positive at the uplifts 2 and 3, and the platform appointments go down
    from 2 to 3. *)
Lemma uplift_antitone_negative_base :
  0 < Out.pixelCpl (Console.out (State.setUplift 2 st_negative_base))
  /\ 0 < Out.pixelCpl (Console.out (State.setUplift 3 st_negative_base))
  /\ 0 < Out.pixelBudget (Console.out (State.setUplift 2 st_negative_base))
  /\ Out.pixelAppts (Console.out (State.setUplift 3 st_negative_base))
     < Out.pixelAppts (Console.out (State.setUplift 2 st_negative_base)).
Proof.
  assert (P2 : Out.pixelCpl (Console.out (State.setUplift 2 st_negative_base))
               = 21.6) by eval_pipeline.
  assert (P3 : Out.pixelCpl (Console.out (State.setUplift 3 st_negative_base))
               = 43.2) by eval_pipeline.
  assert (B : forall u,
             Out.pixelBudget (Console.out (State.setUplift u st_negative_base))
             = 1500) by (intros u; eval_pipeline).
  split; [rewrite P2; lra |].
  split; [rewrite P3; lra |].
  split; [rewrite B; lra |].
  rewrite !pixelAppts_eq.
  rewrite !pixelLeads_positive by (rewrite ?B, ?P2, ?P3; lra).
  rewrite !B, P2, P3. simpl State.apptRate. lra.
Qed.

(** ** Uplift above one *)

(** C7 (as amended).  The uplift is not clamped: with an uplift above 1
    and a positive competitor cost per lead, the platform cost per lead is
    negative.  The lead guard then returns 0 platform leads, so the
    platform appointments, cost per appointment, closed count and revenue
    are all 0; none of them is negative. *)
Theorem uplift_above_one_zero_leads (s : State.t) :
  1 < State.uplift s ->
  0 < Out.competitorCpl (Console.out s) ->
  Out.pixelCpl (Console.out s) < 0
  /\ Out.pixelLeads (Console.out s) = 0
  /\ Out.pixelAppts (Console.out s) = 0
  /\ Out.pixelCpa (Console.out s) = 0
  /\ Out.pixelClosed (Console.out s) = 0
  /\ Out.pixelRevenue (Console.out s) = 0.
Proof.
  intros Hu Hc.
  assert (HP : Out.pixelCpl (Console.out s) < 0).
  { rewrite pixelCpl_eq.
    replace 0 with (Out.competitorCpl (Console.out s) * 0) by ring.
    apply Rmult_lt_compat_l; [exact Hc | lra]. }
  assert (HL : Out.pixelLeads (Console.out s) = 0).
  { apply pixelLeads_guard. right. lra. }
  assert (HA : Out.pixelAppts (Console.out s) = 0).
  { rewrite pixelAppts_eq, HL. ring. }
  assert (HK : Out.pixelClosed (Console.out s) = 0).
  { rewrite pixelClosed_eq, HA. ring. }
  repeat split; try assumption.
  - rewrite pixelCpa_eq, HA. rewrite gt0_false by lra. reflexivity.
  - rewrite pixelRevenue_eq, HK. ring.
Qed.

Lemma uplift_above_one_zero_leads_witness :
  Out.pixelCpl (Console.out st_uplift_150) < 0
  /\ Out.pixelLeads (Console.out st_uplift_150) = 0
  /\ Out.pixelAppts (Console.out st_uplift_150) = 0
  /\ Out.pixelCpa (Console.out st_uplift_150) = 0
  /\ Out.pixelClosed (Console.out st_uplift_150) = 0
  /\ Out.pixelRevenue (Console.out st_uplift_150) = 0.
Proof.
  apply (uplift_above_one_zero_leads st_uplift_150).
  - simpl. lra.
  - eval_pipeline.
Defined.

(** The example of the specification, uplift 1.5 on the initial state:
    the platform cost per lead is -10.8 and the platform leads are 0. *)
Lemma uplift_150_values :
  Out.pixelCpl (Console.out st_uplift_150) = -10.8
  /\ Out.pixelLeads (Console.out st_uplift_150) = 0.
Proof.
  split.
  - eval_pipeline.
  - apply pixelLeads_guard. right. eval_pipeline.
Qed.

(** No state at all has negative platform leads together with a negative
    platform cost per lead, negative appointments and negative revenue. *)
Lemma no_negative_platform_leads :
  ~ exists s : State.t,
      1 < State.uplift s
      /\ Out.pixelCpl (Console.out s) < 0
      /\ Out.pixelLeads (Console.out s) < 0
      /\ Out.pixelAppts (Console.out s) < 0
      /\ Out.pixelRevenue (Console.out s) < 0.
Proof.
  intros (s & _ & _ & HL & _).
  pose proof (pixelLeads_nonneg s). lra.
Qed.

(** ** Metro lookup *)

Lemma city_is_spec (name : string) (c : Metro.t) :
  city_is name c = true <-> Metro.city c = Some name.
Proof.
  unfold city_is. destruct (Metro.city c) as [n |].
  - rewrite String.eqb_eq. split; congruence.
  - split; discriminate.
Qed.

Lemma distinct_keys_NoDup (l : list (option string)) :
  distinct_keys l = true -> NoDup l.
Proof.
  induction l as [| k r IH]; simpl; intros H.
  - constructor.
  - apply andb_true_iff in H. destruct H as [Hk Hr].
    constructor; [| apply IH; exact Hr].
    intros Hin. apply negb_true_iff in Hk.
    assert (E : existsb
                  (fun k' =>
                     match k, k' with
                     | Some a, Some b => String.eqb a b
                     | None, None => true
                     | _, _ => false
                     end) r = true).
    { apply existsb_exists. exists k. split; [exact Hin |].
      destruct k; [apply String.eqb_refl | reflexivity]. }
    congruence.
Qed.

Lemma city_unique (l : list Metro.t) (c c' : Metro.t) :
  NoDup (map Metro.city l) ->
  In c l -> In c' l -> Metro.city c = Metro.city c' -> c = c'.
Proof.
  induction l as [| x r IH]; simpl; intros Hnd Hc Hc' E; [contradiction |].
  inversion Hnd as [| ? ? Hx Hr]; subst.
  destruct Hc as [-> | Hc], Hc' as [-> | Hc'].
  - reflexivity.
  - exfalso. apply Hx. rewrite E. apply in_map. exact Hc'.
  - exfalso. apply Hx. rewrite <- E. apply in_map. exact Hc.
  - apply IH; assumption.
Qed.

Lemma CITY_TABLE_distinct : NoDup (map Metro.city Console.CITY_TABLE).
Proof. apply distinct_keys_NoDup. reflexivity. Qed.

Lemma metro_found (name : string) (c : Metro.t) :
  In c Console.CITY_TABLE -> Metro.city c = Some name ->
  Console.metro name = c.
Proof.
  intros Hin Hc. unfold Console.metro.
  destruct (find (city_is name) Console.CITY_TABLE) as [c' |] eqn:F.
  - apply find_some in F. destruct F as [Hin' Hc'].
    apply city_is_spec in Hc'.
    apply (city_unique Console.CITY_TABLE); try assumption.
    + apply CITY_TABLE_distinct.
    + congruence.
  - apply (find_none _ _ F) in Hin.
    apply city_is_spec in Hc. congruence.
Qed.

Lemma metro_fallback (name : string) :
  (forall c, In c Console.CITY_TABLE -> Metro.city c <> Some name) ->
  Console.metro name = Metro.mk None 1 350000.
Proof.
  intros Hno. unfold Console.metro.
  destruct (find (city_is name) Console.CITY_TABLE) as [c' |] eqn:F.
  - apply find_some in F. destruct F as [Hin' Hc'].
    apply city_is_spec in Hc'. elim (Hno c' Hin' Hc').
  - reflexivity.
Qed.

(** C4.  For every string, the lookup [metro] returns the row of
    [CITY_TABLE] whose [city] is exactly that string when there is one (and
    there is at most one), and the fixed fallback object with multiplier 1
    and average price 350000 when there is none.  These are the only two
    outcomes, and equal names give equal results. *)
Theorem metro_lookup (name : string) :
  (forall c, In c Console.CITY_TABLE -> Metro.city c = Some name ->
             Console.metro name = c)
  /\ ((forall c, In c Console.CITY_TABLE -> Metro.city c <> Some name) ->
      Console.metro name = Metro.mk None 1 350000)
  /\ ((In (Console.metro name) Console.CITY_TABLE
       /\ Metro.city (Console.metro name) = Some name)
      \/ (Console.metro name = Metro.mk None 1 350000
          /\ forall c, In c Console.CITY_TABLE -> Metro.city c <> Some name))
  /\ (forall name', name' = name -> Console.metro name' = Console.metro name).
Proof.
  split; [intros c; apply metro_found |].
  split; [apply metro_fallback |].
  split; [| intros name' ->; reflexivity].
  destruct (find (city_is name) Console.CITY_TABLE) as [c |] eqn:F.
  - left. apply find_some in F. destruct F as [Hin Hc].
    apply city_is_spec in Hc.
    rewrite (metro_found name c Hin Hc). split; assumption.
  - right. split.
    + unfold Console.metro. rewrite F. reflexivity.
    + intros c Hin Hc. apply (find_none _ _ F) in Hin.
      apply city_is_spec in Hc. congruence.
Qed.

Lemma metro_lookup_witness :
  Console.metro "Miami, FL" = Metro.mk (Some "Miami, FL") 1.3 600000
  /\ Console.metro "miami, fl" = Metro.mk None 1 350000.
Proof.
  split.
  - destruct (metro_lookup "Miami, FL") as (Hfound & _).
    apply Hfound.
    + simpl. tauto.
    + reflexivity.
  - destruct (metro_lookup "miami, fl") as (_ & Hfallback & _).
    apply Hfallback.
    intros c Hin. simpl in Hin.
    repeat (destruct Hin as [<- | Hin]; [discriminate |]).
    contradiction.
Defined.

(** ** Contents of the city table *)

(** C8 (as amended).  [CITY_TABLE] has exactly 38 rows; row by row, in the
    order of the specification's enumeration, it carries the enumerated
    multiplier and average price, and its [city] key is the enumerated name
    with a comma inserted before the state code (for instance
    [New York, NY]).  The keys are pairwise distinct. *)
Theorem city_table_contents :
  length Console.CITY_TABLE = 38%nat
  /\ Console.CITY_TABLE = map with_comma Spec.MARKET_TABLE
  /\ map Metro.mult Console.CITY_TABLE = map Metro.mult Spec.MARKET_TABLE
  /\ map Metro.avg Console.CITY_TABLE = map Metro.avg Spec.MARKET_TABLE
  /\ NoDup (map Metro.city Console.CITY_TABLE).
Proof.
  split; [reflexivity |].
  split; [reflexivity |].
  split; [reflexivity |].
  split; [reflexivity | apply CITY_TABLE_distinct].
Qed.

(** The first row is keyed [New York, NY] in the source and [New York NY]
    in the enumeration, so the two tables differ, and the enumerated key
    resolves to the fallback object instead of the New York row. *)
Lemma city_table_keys_differ :
  nth_error (map Metro.city Console.CITY_TABLE) 0 = Some (Some "New York, NY")
  /\ nth_error (map Metro.city Spec.MARKET_TABLE) 0
     = Some (Some "New York NY")
  /\ Console.CITY_TABLE <> Spec.MARKET_TABLE
  /\ Console.metro "New York NY" = Metro.mk None 1 350000.
Proof.
  split; [reflexivity |].
  split; [reflexivity |].
  split; [| reflexivity].
  intros E.
  apply (f_equal (fun l => nth_error (map Metro.city l) 0)) in E.
  simpl in E. discriminate E.
Qed.

(** None of the enumerated keys is a key of the source table. *)
Lemma enumerated_keys_all_fall_back :
  Forall (fun m =>
            match Metro.city m with
            | Some n => Console.metro n = Metro.mk None 1 350000
            | None => True
            end) Spec.MARKET_TABLE.
Proof. repeat constructor. Qed.

(** ** The two sources *)

(** C9.  The two sources hold the same table, resolve every city to the
    same object and, on every content of the state slots, return the same
    hook result, hence the same value in every field of [out] and of
    [derived]. *)
Theorem sources_agree (s : State.t) :
  App.CITY_TABLE = Console.CITY_TABLE
  /\ App.metro (State.city s) = Console.metro (State.city s)
  /\ App.acv s = Console.acv s
  /\ App.out s = Console.out s
  /\ App.useCalculator s = Console.useCalculator s.
Proof. repeat split. Qed.

(** ** Channel dispatch *)

(** C10.  In either source the baseline cost is chosen by one test, whether
    the channel is exactly the string [meta]: if it is, the competitor cost
    per lead is [baseMeta] times the multiplier, and for every other
    string, known or not, it is [baseGoogle] times the multiplier. *)
Theorem channel_dispatch (s : State.t) (o : Out.t) :
  o = Console.out s \/ o = App.out s ->
  (State.channel s = "meta" ->
   Out.competitorCpl o
   = State.baseMeta s * Metro.mult (Console.metro (State.city s)))
  /\ (State.channel s <> "meta" ->
      Out.competitorCpl o
      = State.baseGoogle s * Metro.mult (Console.metro (State.city s))).
Proof.
  intros Ho.
  assert (E : o = Console.out s) by (destruct Ho as [-> | ->]; reflexivity).
  subst o. rewrite competitorCpl_eq.
  split; intros H.
  - rewrite H. reflexivity.
  - apply String.eqb_neq in H. rewrite H. reflexivity.
Qed.

Lemma channel_dispatch_witness :
  Out.competitorCpl (App.out st_other_channel) = 85 * 1.35.
Proof.
  destruct (channel_dispatch st_other_channel (App.out st_other_channel))
    as [_ H].
  - right. reflexivity.
  - rewrite H; [reflexivity | discriminate].
Defined.

(** * Further properties of the calculator *)

(** ** Range of the lookup result *)

Lemma CITY_TABLE_ranges :
  Forall (fun c => (0.85 <= Metro.mult c <= 1.35)
                   /\ (220000 <= Metro.avg c <= 1300000))
         Console.CITY_TABLE.
Proof.
  unfold Console.CITY_TABLE.
  repeat (apply Forall_cons; [simpl; lra |]).
  apply Forall_nil.
Qed.

Lemma metro_in_table_or_fallback (city : string) :
  In (Console.metro city) Console.CITY_TABLE
  \/ Console.metro city = Metro.mk None 1 350000.
Proof.
  unfold Console.metro.
  destruct (find (city_is city) Console.CITY_TABLE) as [c |] eqn:F.
  - left. apply find_some in F. tauto.
  - right. reflexivity.
Qed.

(** X1.  Whatever string is looked up, known city or not, the resulting
    object has a multiplier between 0.85 and 1.35 and an average price
    between 220000 and 1300000; in particular both are positive. *)
Theorem metro_ranges (city : string) :
  (0.85 <= Metro.mult (Console.metro city) <= 1.35)
  /\ (220000 <= Metro.avg (Console.metro city) <= 1300000).
Proof.
  destruct (metro_in_table_or_fallback city) as [Hin | ->].
  - pose proof CITY_TABLE_ranges as HF.
    rewrite Forall_forall in HF. apply HF. exact Hin.
  - simpl. lra.
Qed.

Lemma metro_mult_bounds (city : string) :
  0.85 <= Metro.mult (Console.metro city) <= 1.35.
Proof.
  destruct (metro_in_table_or_fallback city) as [Hin | ->].
  - pose proof CITY_TABLE_ranges as HF.
    rewrite Forall_forall in HF. apply HF. exact Hin.
  - simpl. lra.
Qed.

Lemma metro_avg_pos (city : string) : 0 < Metro.avg (Console.metro city).
Proof.
  destruct (metro_in_table_or_fallback city) as [Hin | ->].
  - pose proof CITY_TABLE_ranges as HF.
    rewrite Forall_forall in HF. apply HF in Hin. lra.
  - simpl. lra.
Qed.

(** X2.  The competitor cost per lead has the sign of the baseline cost
    selected by the channel: the two are positive together, negative
    together and zero together, for every city string.  Its size lies
    between 85 and 135 percent of the baseline's, on either side of zero. *)
Theorem competitorCpl_vs_baseline (s : State.t) :
  (0 < Out.competitorCpl (Console.out s) <->
   0 < (if String.eqb (State.channel s) "meta"
        then State.baseMeta s else State.baseGoogle s))
  /\ (Out.competitorCpl (Console.out s) < 0 <->
      (if String.eqb (State.channel s) "meta"
       then State.baseMeta s else State.baseGoogle s) < 0)
  /\ (Out.competitorCpl (Console.out s) = 0 <->
      (if String.eqb (State.channel s) "meta"
       then State.baseMeta s else State.baseGoogle s) = 0)
  /\ (0 <= (if String.eqb (State.channel s) "meta"
            then State.baseMeta s else State.baseGoogle s) ->
      0.85 * (if String.eqb (State.channel s) "meta"
              then State.baseMeta s else State.baseGoogle s)
      <= Out.competitorCpl (Console.out s)
      <= 1.35 * (if String.eqb (State.channel s) "meta"
                 then State.baseMeta s else State.baseGoogle s))
  /\ ((if String.eqb (State.channel s) "meta"
       then State.baseMeta s else State.baseGoogle s) <= 0 ->
      1.35 * (if String.eqb (State.channel s) "meta"
              then State.baseMeta s else State.baseGoogle s)
      <= Out.competitorCpl (Console.out s)
      <= 0.85 * (if String.eqb (State.channel s) "meta"
                 then State.baseMeta s else State.baseGoogle s)).
Proof.
  rewrite competitorCpl_eq.
  pose proof (metro_mult_bounds (State.city s)) as Hm.
  set (m := Metro.mult (Console.metro (State.city s))) in *.
  set (b := if String.eqb (State.channel s) "meta"
            then State.baseMeta s else State.baseGoogle s).
  assert (Hpos : 0 < b -> 0 < b * m) by (intros; nra).
  assert (Hneg : b < 0 -> b * m < 0) by (intros; nra).
  assert (Hzero : b = 0 -> b * m = 0) by (intros ->; ring).
  split; [split; [| exact Hpos] |].
  { intros H. destruct (Rtotal_order b 0) as [Hb | [Hb | Hb]].
    - apply Hneg in Hb. lra.
    - apply Hzero in Hb. lra.
    - exact Hb. }
  split; [split; [| exact Hneg] |].
  { intros H. destruct (Rtotal_order b 0) as [Hb | [Hb | Hb]].
    - exact Hb.
    - apply Hzero in Hb. lra.
    - apply Hpos in Hb. lra. }
  split; [split; [| exact Hzero] |].
  { intros H. destruct (Rtotal_order b 0) as [Hb | [Hb | Hb]].
    - apply Hneg in Hb. lra.
    - exact Hb.
    - apply Hpos in Hb. lra. }
  split; intros H; nra.
Qed.

Lemma competitorCpl_vs_baseline_witness :
  (0.85 * 85 <= Out.competitorCpl (Console.out st_other_channel) <= 1.35 * 85)
  /\ (1.35 * (-16) <= Out.competitorCpl (Console.out st_negative_base)
      <= 0.85 * (-16))
  /\ Out.competitorCpl (Console.out st_negative_base) < 0.
Proof.
  destruct (competitorCpl_vs_baseline st_other_channel)
    as (_ & _ & _ & Hup & _).
  destruct (competitorCpl_vs_baseline st_negative_base)
    as (_ & Hneg & _ & _ & Hdown).
  split; [apply Hup; simpl; lra |].
  split; [apply Hdown; simpl; lra | apply Hneg; simpl; lra].
Defined.

(** ** Signs of the guarded quotients *)

Lemma competitorLeads_nonneg (s : State.t) :
  0 <= Out.competitorLeads (Console.out s).
Proof.
  rewrite competitorLeads_eq.
  destruct (gt0 (State.spend s)) eqn:Hb;
    destruct (gt0 (Out.competitorCpl (Console.out s))) eqn:Hc;
    simpl; try lra.
  apply gt0_spec in Hb. apply gt0_spec in Hc.
  apply Rlt_le. apply Rdiv_lt_0_compat; assumption.
Qed.

Lemma competitorLeads_positive (s : State.t) :
  0 < State.spend s ->
  0 < Out.competitorCpl (Console.out s) ->
  Out.competitorLeads (Console.out s) =
  State.spend s / Out.competitorCpl (Console.out s).
Proof.
  intros Hb Hc. rewrite competitorLeads_eq.
  rewrite (gt0_true _ Hb), (gt0_true _ Hc). reflexivity.
Qed.

(** X3.  No state gives a negative number of leads, in either scenario. *)
Theorem leads_never_negative (s : State.t) :
  0 <= Out.competitorLeads (Console.out s)
  /\ 0 <= Out.pixelLeads (Console.out s).
Proof.
  split; [apply competitorLeads_nonneg | apply pixelLeads_nonneg].
Qed.

Lemma competitorLeads_pos_inv (s : State.t) :
  0 < Out.competitorLeads (Console.out s) ->
  0 < State.spend s /\ 0 < Out.competitorCpl (Console.out s).
Proof.
  rewrite competitorLeads_eq.
  destruct (gt0 (State.spend s)) eqn:Hb;
    destruct (gt0 (Out.competitorCpl (Console.out s))) eqn:Hc;
    simpl; intros H; try lra.
  split; apply gt0_spec; assumption.
Qed.

Lemma pixelLeads_pos_inv (s : State.t) :
  0 < Out.pixelLeads (Console.out s) ->
  0 < Out.pixelBudget (Console.out s) /\ 0 < Out.pixelCpl (Console.out s).
Proof.
  rewrite pixelLeads_eq.
  destruct (gt0 (Out.pixelBudget (Console.out s))) eqn:Hb;
    destruct (gt0 (Out.pixelCpl (Console.out s))) eqn:Hc;
    simpl; intros H; try lra.
  split; apply gt0_spec; assumption.
Qed.

(** ** Cost per appointment *)

Lemma product_pos_inv (a b : R) : 0 <= a -> 0 < a * b -> 0 < a /\ 0 < b.
Proof.
  intros Ha Hab.
  assert (Hpos : 0 < a).
  { destruct Ha as [Ha | Ha]; [exact Ha |].
    rewrite <- Ha, Rmult_0_l in Hab. lra. }
  split; [exact Hpos |].
  destruct (Rlt_dec 0 b) as [Hb | Hb]; [exact Hb |].
  assert (a * b <= a * 0) by (apply Rmult_le_compat_l; lra).
  lra.
Qed.

Lemma competitorAppts_pos_inv (s : State.t) :
  0 < Out.competitorAppts (Console.out s) ->
  0 < State.spend s /\ 0 < Out.competitorCpl (Console.out s)
  /\ 0 < State.apptRate s.
Proof.
  rewrite competitorAppts_eq. intros H.
  destruct (product_pos_inv _ _ (competitorLeads_nonneg s) H) as [HL Hr].
  destruct (competitorLeads_pos_inv s HL) as [Hb Hc].
  repeat split; assumption.
Qed.

Lemma pixelAppts_pos_inv (s : State.t) :
  0 < Out.pixelAppts (Console.out s) ->
  0 < Out.pixelBudget (Console.out s) /\ 0 < Out.pixelCpl (Console.out s)
  /\ 0 < State.apptRate s.
Proof.
  rewrite pixelAppts_eq. intros H.
  destruct (product_pos_inv _ _ (pixelLeads_nonneg s) H) as [HL Hr].
  destruct (pixelLeads_pos_inv s HL) as [Hb Hc].
  repeat split; assumption.
Qed.

Lemma competitorCpa_pos (s : State.t) :
  0 < Out.competitorAppts (Console.out s) ->
  0 < Out.competitorCpa (Console.out s).
Proof.
  intros H. destruct (competitorAppts_pos_inv s H) as (Hb & _).
  rewrite competitorCpa_eq, (gt0_true _ H).
  apply Rdiv_lt_0_compat; assumption.
Qed.

Lemma pixelCpa_pos (s : State.t) :
  0 < Out.pixelAppts (Console.out s) ->
  0 < Out.pixelCpa (Console.out s).
Proof.
  intros H. destruct (pixelAppts_pos_inv s H) as (Hb & _).
  rewrite pixelCpa_eq, (gt0_true _ H).
  apply Rdiv_lt_0_compat; assumption.
Qed.

Lemma competitorCpa_zero_iff (s : State.t) :
  Out.competitorCpa (Console.out s) = 0
  <-> Out.competitorAppts (Console.out s) <= 0.
Proof.
  destruct (Rlt_dec 0 (Out.competitorAppts (Console.out s))) as [H | H].
  - pose proof (competitorCpa_pos s H). split; intros; lra.
  - rewrite competitorCpa_eq, gt0_false by lra. split; intros; lra.
Qed.

Lemma pixelCpa_zero_iff (s : State.t) :
  Out.pixelCpa (Console.out s) = 0
  <-> Out.pixelAppts (Console.out s) <= 0.
Proof.
  destruct (Rlt_dec 0 (Out.pixelAppts (Console.out s))) as [H | H].
  - pose proof (pixelCpa_pos s H). split; intros; lra.
  - rewrite pixelCpa_eq, gt0_false by lra. split; intros; lra.
Qed.

(** X5.  In both scenarios the cost per appointment is never negative, and
    it is the sentinel 0 exactly when the scenario has no positive number of
    appointments: a scenario with appointments always has a positive cost
    per appointment. *)
Theorem cpa_zero_exactly_without_appointments (s : State.t) :
  0 <= Out.competitorCpa (Console.out s)
  /\ (Out.competitorCpa (Console.out s) = 0
      <-> Out.competitorAppts (Console.out s) <= 0)
  /\ 0 <= Out.pixelCpa (Console.out s)
  /\ (Out.pixelCpa (Console.out s) = 0
      <-> Out.pixelAppts (Console.out s) <= 0).
Proof.
  assert (C : 0 <= Out.competitorCpa (Console.out s)).
  { destruct (Rlt_dec 0 (Out.competitorAppts (Console.out s))) as [H | H].
    - apply Rlt_le, competitorCpa_pos. exact H.
    - rewrite competitorCpa_eq, gt0_false by lra. lra. }
  assert (P : 0 <= Out.pixelCpa (Console.out s)).
  { destruct (Rlt_dec 0 (Out.pixelAppts (Console.out s))) as [H | H].
    - apply Rlt_le, pixelCpa_pos. exact H.
    - rewrite pixelCpa_eq, gt0_false by lra. lra. }
  split; [exact C |].
  split; [apply competitorCpa_zero_iff |].
  split; [exact P | apply pixelCpa_zero_iff].
Qed.

(** ** Platform against competitor *)

Lemma funded_nonneg (s : State.t) :
  0 <= State.fundedCap s -> 0 <= Out.funded (Console.out s).
Proof.
  intros H. rewrite funded_eq.
  apply Rmin_glb; [exact H | apply clamped_sum_nonneg].
Qed.

Lemma pixelLeads_ge_competitorLeads (s : State.t) :
  0 <= State.uplift s < 1 ->
  0 <= State.fundedCap s ->
  Out.competitorLeads (Console.out s) <= Out.pixelLeads (Console.out s).
Proof.
  intros [Hu0 Hu1] Hcap.
  destruct (Rlt_dec 0 (Out.competitorLeads (Console.out s))) as [HL | HL].
  - destruct (competitorLeads_pos_inv s HL) as [Hb Hc].
    pose proof (funded_nonneg s Hcap) as Hf.
    pose proof (Rmax_r 0 (State.spend s)) as Hmax.
    assert (HB : State.spend s <= Out.pixelBudget (Console.out s))
      by (rewrite pixelBudget_eq; lra).
    assert (HP : 0 < Out.pixelCpl (Console.out s)
                 /\ Out.pixelCpl (Console.out s)
                    <= Out.competitorCpl (Console.out s))
      by (rewrite pixelCpl_eq; split; nra).
    destruct HP as [HP0 HP1].
    rewrite (competitorLeads_positive s Hb Hc).
    rewrite pixelLeads_positive by lra.
    apply Rle_trans
      with (Out.pixelBudget (Console.out s)
            / Out.competitorCpl (Console.out s)).
    + unfold Rdiv. apply Rmult_le_compat_r; [| exact HB].
      apply Rlt_le, Rinv_0_lt_compat. exact Hc.
    + unfold Rdiv. apply Rmult_le_compat_l; [lra |].
      apply Rinv_le_contravar; assumption.
  - pose proof (pixelLeads_nonneg s). lra.
Qed.

(** X7.  With an uplift in [0, 1), a funded cap that is not negative and
    an appointment rate that is not negative, the platform scenario never
    books fewer appointments than the competitor scenario; if the close
    rate and the commission rate are not negative either, it never earns
    less revenue.  Both deltas are then at least 0. *)
Theorem platform_never_behind (s : State.t) :
  0 <= State.uplift s < 1 ->
  0 <= State.fundedCap s ->
  0 <= State.apptRate s ->
  0 <= Out.deltaAppts (Console.out s)
  /\ (0 <= State.closeRate s -> 0 <= State.commissionRate s ->
      0 <= Out.deltaRevenue (Console.out s)).
Proof.
  intros Hu Hcap Hr.
  pose proof (pixelLeads_ge_competitorLeads s Hu Hcap) as HL.
  assert (HA : Out.competitorAppts (Console.out s)
               <= Out.pixelAppts (Console.out s)).
  { rewrite competitorAppts_eq, pixelAppts_eq.
    apply Rmult_le_compat_r; assumption. }
  split.
  - change (Out.deltaAppts (Console.out s))
      with (Out.pixelAppts (Console.out s)
            - Out.competitorAppts (Console.out s)).
    lra.
  - intros Hk Hc.
    change (Out.deltaRevenue (Console.out s))
      with (Out.pixelAppts (Console.out s) * State.closeRate s
              * Out.acv (Console.out s)
            - Out.competitorAppts (Console.out s) * State.closeRate s
              * Out.acv (Console.out s)).
    assert (Hv : 0 <= Out.acv (Console.out s)).
    { rewrite acv_eq. apply Rmult_le_pos; [| exact Hc].
      apply Rlt_le, metro_avg_pos. }
    assert (Out.competitorAppts (Console.out s) * State.closeRate s
            <= Out.pixelAppts (Console.out s) * State.closeRate s)
      by (apply Rmult_le_compat_r; assumption).
    assert (Out.competitorAppts (Console.out s) * State.closeRate s
              * Out.acv (Console.out s)
            <= Out.pixelAppts (Console.out s) * State.closeRate s
               * Out.acv (Console.out s))
      by (apply Rmult_le_compat_r; assumption).
    lra.
Qed.

Lemma platform_never_behind_witness :
  0 <= Out.deltaAppts (Console.out st_initial)
  /\ 0 <= Out.deltaRevenue (Console.out st_initial).
Proof.
  destruct (platform_never_behind st_initial) as [HA HR];
    try (simpl; lra).
  split; [exact HA | apply HR; simpl; lra].
Defined.

(** X8.  With an uplift of 0 and no applied credit the two scenarios
    coincide: same cost per lead, leads, appointments, cost per
    appointment and revenue, and both deltas are 0, whatever the spend. *)
Theorem no_uplift_no_credit_no_difference (s : State.t) :
  State.uplift s = 0 ->
  Out.funded (Console.out s) = 0 ->
  Out.pixelCpl (Console.out s) = Out.competitorCpl (Console.out s)
  /\ Out.pixelLeads (Console.out s) = Out.competitorLeads (Console.out s)
  /\ Out.pixelAppts (Console.out s) = Out.competitorAppts (Console.out s)
  /\ Out.pixelCpa (Console.out s) = Out.competitorCpa (Console.out s)
  /\ Out.pixelRevenue (Console.out s) = Out.competitorRevenue (Console.out s)
  /\ Out.deltaAppts (Console.out s) = 0
  /\ Out.deltaRevenue (Console.out s) = 0.
Proof.
  intros Hu Hf.
  assert (EC : Out.pixelCpl (Console.out s)
               = Out.competitorCpl (Console.out s))
    by (rewrite pixelCpl_eq, Hu; ring).
  assert (EB : Out.pixelBudget (Console.out s) = Rmax 0 (State.spend s))
    by (rewrite pixelBudget_eq, Hf; ring).
  assert (EL : Out.pixelLeads (Console.out s)
               = Out.competitorLeads (Console.out s)).
  { rewrite pixelLeads_eq, competitorLeads_eq, EC, EB.
    destruct (Rlt_dec 0 (State.spend s)) as [Hs | Hs].
    - rewrite Rmax_right by lra. reflexivity.
    - rewrite Rmax_left by lra.
      rewrite (gt0_false 0) by lra. rewrite (gt0_false (State.spend s)) by lra.
      reflexivity. }
  assert (EA : Out.pixelAppts (Console.out s)
               = Out.competitorAppts (Console.out s))
    by (rewrite pixelAppts_eq, competitorAppts_eq, EL; reflexivity).
  assert (EP : Out.pixelCpa (Console.out s)
               = Out.competitorCpa (Console.out s)).
  { rewrite pixelCpa_eq, competitorCpa_eq, EA, EB.
    destruct (Rlt_dec 0 (Out.competitorAppts (Console.out s))) as [H | H].
    - destruct (competitorAppts_pos_inv s H) as (Hb & _).
      rewrite Rmax_right by lra. reflexivity.
    - rewrite gt0_false by lra. reflexivity. }
  assert (ER : Out.pixelRevenue (Console.out s)
               = Out.competitorRevenue (Console.out s)).
  { change (Out.competitorRevenue (Console.out s))
      with (Out.competitorAppts (Console.out s) * State.closeRate s
            * Out.acv (Console.out s)).
    rewrite pixelRevenue_eq, pixelClosed_eq, EA. reflexivity. }
  repeat split; try assumption.
  - change (Out.deltaAppts (Console.out s))
      with (Out.pixelAppts (Console.out s)
            - Out.competitorAppts (Console.out s)).
    rewrite EA. ring.
  - change (Out.deltaRevenue (Console.out s))
      with (Out.pixelRevenue (Console.out s)
            - Out.competitorRevenue (Console.out s)).
    rewrite ER. ring.
Qed.

Lemma no_uplift_no_credit_no_difference_witness :
  Out.pixelLeads (Console.out st_plain)
  = Out.competitorLeads (Console.out st_plain)
  /\ Out.deltaRevenue (Console.out st_plain) = 0.
Proof.
  destruct (no_uplift_no_credit_no_difference st_plain)
    as (_ & HL & _ & _ & _ & _ & HR).
  - reflexivity.
  - rewrite funded_eq. simpl.
    unfold Rmin, Rmax. repeat destruct Rle_dec; lra.
  - split; assumption.
Defined.

(** ** Inputs that the clamps and the cap make irrelevant *)

(** Reduces the state projections on the setters, leaving the arithmetic
    untouched. *)
Ltac unfold_out :=
  unfold Console.out, Console.acv,
    Slots.setSpend, Slots.setPmc, Slots.setGpc, Slots.setFundedCap;
  cbn [State.city State.channel State.spend State.pmc State.gpc
       State.apptRate State.uplift State.baseMeta State.baseGoogle
       State.commissionRate State.closeRate State.fundedCap].

Lemma out_credits_ext (s : State.t) (p g : R) :
  Rmin (State.fundedCap s) (Rmax 0 p + Rmax 0 g)
  = Rmin (State.fundedCap s) (Rmax 0 (State.pmc s) + Rmax 0 (State.gpc s)) ->
  Console.out (Slots.setGpc g (Slots.setPmc p s)) = Console.out s.
Proof.
  intros H. unfold_out. rewrite H. reflexivity.
Qed.

(** X9.  A credit that is zero or negative counts exactly like a credit of
    0: replacing it by 0 changes no field of the output.  This holds for
    each of the two credits. *)
Theorem nonpositive_credit_is_no_credit (s : State.t) (x : R) :
  x <= 0 ->
  Console.out (Slots.setPmc x s) = Console.out (Slots.setPmc 0 s)
  /\ Console.out (Slots.setGpc x s) = Console.out (Slots.setGpc 0 s).
Proof.
  intros Hx.
  assert (E : Rmax 0 x = Rmax 0 0)
    by (rewrite !Rmax_left by lra; reflexivity).
  split.
  - change (Slots.setPmc x s)
      with (Slots.setGpc (State.gpc s) (Slots.setPmc x (Slots.setPmc 0 s))).
    apply out_credits_ext. simpl. rewrite E. reflexivity.
  - change (Slots.setGpc x s)
      with (Slots.setGpc x
              (Slots.setPmc (State.pmc s) (Slots.setGpc 0 s))).
    apply out_credits_ext. simpl. rewrite E. reflexivity.
Qed.

Lemma nonpositive_credit_is_no_credit_witness :
  Console.out (Slots.setPmc (-200) st_initial)
  = Console.out (Slots.setPmc 0 st_initial)
  /\ Console.out (Slots.setGpc (-200) st_initial)
     = Console.out (Slots.setGpc 0 st_initial).
Proof.
  apply (nonpositive_credit_is_no_credit st_initial (-200)). lra.
Defined.

(** X10.  Once the clamped credits add up to the cap or more, the applied
    credit is the cap, and any other pair of credits that also reaches the
    cap gives the same output in every field: credit beyond the cap buys
    nothing. *)
Theorem credits_beyond_cap_change_nothing (s : State.t) (p g : R) :
  State.fundedCap s <= Rmax 0 (State.pmc s) + Rmax 0 (State.gpc s) ->
  State.fundedCap s <= Rmax 0 p + Rmax 0 g ->
  Out.funded (Console.out s) = State.fundedCap s
  /\ Console.out (Slots.setGpc g (Slots.setPmc p s)) = Console.out s.
Proof.
  intros Hs Hpg. split.
  - rewrite funded_eq. apply Rmin_left. exact Hs.
  - apply out_credits_ext. rewrite !Rmin_left by assumption. reflexivity.
Qed.

Lemma credits_beyond_cap_change_nothing_witness :
  Out.funded (Console.out st_over_cap) = 1300
  /\ Console.out (Slots.setGpc 0 (Slots.setPmc 5000 st_over_cap))
     = Console.out st_over_cap.
Proof.
  apply (credits_beyond_cap_change_nothing st_over_cap 5000 0); simpl;
    unfold Rmax; repeat destruct Rle_dec; lra.
Defined.

(** X11.  A client spend that is zero or negative counts exactly like a
    spend of 0: replacing it by 0 changes no field of the output. *)
Theorem nonpositive_spend_is_no_spend (s : State.t) (x : R) :
  x <= 0 ->
  Console.out (Slots.setSpend x s) = Console.out (Slots.setSpend 0 s).
Proof.
  intros Hx. unfold_out.
  rewrite (Rmax_left 0 x) by lra. rewrite (Rmax_left 0 0) by lra.
  rewrite (gt0_false x) by lra. rewrite (gt0_false 0) by lra.
  cbn [andb].
  rewrite Rmult_0_l. rewrite (gt0_false 0) by lra.
  reflexivity.
Qed.

Lemma nonpositive_spend_is_no_spend_witness :
  Console.out (Slots.setSpend (-40) st_initial)
  = Console.out (Slots.setSpend 0 st_initial).
Proof.
  apply (nonpositive_spend_is_no_spend st_initial (-40)). lra.
Defined.

(** ** Platform budget *)

(** X12.  With a funded cap that is not negative, the platform budget is
    never below the client spend nor below 0, and never above the clamped
    spend plus the cap. *)
Theorem pixelBudget_bounds (s : State.t) :
  0 <= State.fundedCap s ->
  State.spend s <= Out.pixelBudget (Console.out s)
  /\ 0 <= Out.pixelBudget (Console.out s)
  /\ Out.pixelBudget (Console.out s)
     <= Rmax 0 (State.spend s) + State.fundedCap s.
Proof.
  intros Hcap.
  pose proof (funded_nonneg s Hcap) as Hf.
  assert (Hle : Out.funded (Console.out s) <= State.fundedCap s)
    by (rewrite funded_eq; apply Rmin_l).
  pose proof (Rmax_l 0 (State.spend s)).
  pose proof (Rmax_r 0 (State.spend s)).
  rewrite pixelBudget_eq. repeat split; lra.
Qed.

Lemma pixelBudget_bounds_witness :
  State.spend st_over_cap <= Out.pixelBudget (Console.out st_over_cap)
  /\ 0 <= Out.pixelBudget (Console.out st_over_cap)
  /\ Out.pixelBudget (Console.out st_over_cap)
     <= Rmax 0 (State.spend st_over_cap) + State.fundedCap st_over_cap.
Proof.
  apply (pixelBudget_bounds st_over_cap). simpl. lra.
Defined.

(** ** Monotonicity in the money put in *)

Lemma guarded_quotient_monotone (b b' p : R) :
  b <= b' ->
  (if gt0 b && gt0 p then b / p else 0)
  <= (if gt0 b' && gt0 p then b' / p else 0).
Proof.
  intros Hb.
  destruct (Rlt_dec 0 p) as [Hp | Hp].
  - rewrite (gt0_true p Hp), !andb_true_r.
    assert (Hi : 0 < / p) by (apply Rinv_0_lt_compat; exact Hp).
    destruct (Rlt_dec 0 b) as [H | H].
    + rewrite (gt0_true b H), (gt0_true b') by lra.
      unfold Rdiv. apply Rmult_le_compat_r; lra.
    + rewrite (gt0_false b) by lra.
      destruct (Rlt_dec 0 b') as [H' | H'].
      * rewrite (gt0_true b' H').
        apply Rlt_le, Rdiv_lt_0_compat; assumption.
      * rewrite (gt0_false b') by lra. lra.
  - rewrite (gt0_false p) by lra. rewrite !andb_false_r. lra.
Qed.

Lemma Rmax_0_monotone (x y : R) : x <= y -> Rmax 0 x <= Rmax 0 y.
Proof. intros H. unfold Rmax. repeat destruct Rle_dec; lra. Qed.

Lemma Rmin_monotone (a a' b b' : R) :
  a <= a' -> b <= b' -> Rmin a b <= Rmin a' b'.
Proof. intros Ha Hb. unfold Rmin. repeat destruct Rle_dec; lra. Qed.

(** X13.  Raising the client spend, everything else fixed, never lowers
    the leads of either scenario. *)
Theorem leads_monotone_in_spend (s : State.t) (x y : R) :
  x <= y ->
  Out.competitorLeads (Console.out (Slots.setSpend x s))
  <= Out.competitorLeads (Console.out (Slots.setSpend y s))
  /\ Out.pixelLeads (Console.out (Slots.setSpend x s))
     <= Out.pixelLeads (Console.out (Slots.setSpend y s)).
Proof.
  intros Hxy. split.
  - rewrite !competitorLeads_eq.
    change (Out.competitorCpl (Console.out (Slots.setSpend y s)))
      with (Out.competitorCpl (Console.out (Slots.setSpend x s))).
    apply guarded_quotient_monotone. exact Hxy.
  - rewrite !pixelLeads_eq.
    change (Out.pixelCpl (Console.out (Slots.setSpend y s)))
      with (Out.pixelCpl (Console.out (Slots.setSpend x s))).
    apply guarded_quotient_monotone.
    rewrite !pixelBudget_eq.
    change (Out.funded (Console.out (Slots.setSpend y s)))
      with (Out.funded (Console.out (Slots.setSpend x s))).
    apply Rplus_le_compat_r. apply Rmax_0_monotone. exact Hxy.
Qed.

Lemma leads_monotone_in_spend_witness :
  Out.competitorLeads (Console.out (Slots.setSpend 500 st_initial))
  <= Out.competitorLeads (Console.out (Slots.setSpend 2000 st_initial))
  /\ Out.pixelLeads (Console.out (Slots.setSpend 500 st_initial))
     <= Out.pixelLeads (Console.out (Slots.setSpend 2000 st_initial)).
Proof.
  apply (leads_monotone_in_spend st_initial 500 2000). lra.
Defined.

(** X14.  Raising either credit or the funded cap, everything else fixed,
    never lowers the applied credit, the platform budget or the platform
    leads. *)
Theorem funding_monotone (s : State.t) (p p' g g' k k' : R) :
  p <= p' -> g <= g' -> k <= k' ->
  Out.funded
    (Console.out (Slots.setFundedCap k (Slots.setGpc g (Slots.setPmc p s))))
  <= Out.funded
       (Console.out
          (Slots.setFundedCap k' (Slots.setGpc g' (Slots.setPmc p' s))))
  /\ Out.pixelBudget
       (Console.out (Slots.setFundedCap k (Slots.setGpc g (Slots.setPmc p s))))
     <= Out.pixelBudget
          (Console.out
             (Slots.setFundedCap k' (Slots.setGpc g' (Slots.setPmc p' s))))
  /\ Out.pixelLeads
       (Console.out (Slots.setFundedCap k (Slots.setGpc g (Slots.setPmc p s))))
     <= Out.pixelLeads
          (Console.out
             (Slots.setFundedCap k' (Slots.setGpc g' (Slots.setPmc p' s)))).
Proof.
  intros Hp Hg Hk.
  set (s1 := Slots.setFundedCap k (Slots.setGpc g (Slots.setPmc p s))).
  set (s2 := Slots.setFundedCap k' (Slots.setGpc g' (Slots.setPmc p' s))).
  assert (F : Out.funded (Console.out s1) <= Out.funded (Console.out s2)).
  { rewrite !funded_eq. subst s1 s2. simpl.
    apply Rmin_monotone; [exact Hk |].
    apply Rplus_le_compat; apply Rmax_0_monotone; assumption. }
  assert (B : Out.pixelBudget (Console.out s1)
              <= Out.pixelBudget (Console.out s2)).
  { rewrite !pixelBudget_eq.
    change (State.spend s2) with (State.spend s1).
    apply Rplus_le_compat_l. exact F. }
  split; [exact F | split; [exact B |]].
  rewrite !pixelLeads_eq.
  change (Out.pixelCpl (Console.out s2)) with (Out.pixelCpl (Console.out s1)).
  apply guarded_quotient_monotone. exact B.
Qed.

Lemma funding_monotone_witness :
  Out.pixelLeads
    (Console.out
       (Slots.setFundedCap 1000 (Slots.setGpc 0 (Slots.setPmc 100 st_initial))))
  <= Out.pixelLeads
       (Console.out
          (Slots.setFundedCap 1300
             (Slots.setGpc 50 (Slots.setPmc 500 st_initial)))).
Proof.
  apply (funding_monotone st_initial 100 500 0 50 1000 1300); lra.
Defined.

(** ** What the panel shows *)

Lemma truthy_false_iff (x : R) : truthy x = false <-> x = 0.
Proof.
  unfold truthy. destruct (Req_dec_T x 0); split; intros;
    congruence.
Qed.

Lemma cpa_cell_dash_iff (x : R) : cpa_cell x = None <-> x = 0.
Proof.
  unfold cpa_cell. rewrite <- truthy_false_iff.
  destruct (truthy x); split; intros; congruence.
Qed.

(** X15.  A cost-per-appointment cell of the panel shows the dash exactly
    when its scenario has no positive number of appointments, and an amount
    otherwise; this holds for the competitor cell and for the platform
    cell. *)
Theorem cpa_cell_dash_exactly_without_appointments (s : State.t) :
  (cpa_cell (Out.competitorCpa (Console.out s)) = None
   <-> Out.competitorAppts (Console.out s) <= 0)
  /\ (cpa_cell (Out.pixelCpa (Console.out s)) = None
      <-> Out.pixelAppts (Console.out s) <= 0).
Proof.
  split; rewrite cpa_cell_dash_iff.
  - apply competitorCpa_zero_iff.
  - apply pixelCpa_zero_iff.
Qed.

Lemma deltaAppts_nonneg (s : State.t) :
  0 <= State.uplift s < 1 ->
  0 <= State.fundedCap s ->
  0 <= State.apptRate s ->
  0 <= Out.deltaAppts (Console.out s).
Proof.
  intros Hu Hcap Hr.
  pose proof (pixelLeads_ge_competitorLeads s Hu Hcap) as HL.
  change (Out.deltaAppts (Console.out s))
    with (Out.pixelLeads (Console.out s) * State.apptRate s
          - Out.competitorLeads (Console.out s) * State.apptRate s).
  assert (Out.competitorLeads (Console.out s) * State.apptRate s
          <= Out.pixelLeads (Console.out s) * State.apptRate s)
    by (apply Rmult_le_compat_r; assumption).
  lra.
Qed.

(** X16.  With an uplift in [0, 1), a funded cap and an appointment rate
    that are not negative, the appointment delta is shown with the plus
    sign. *)
Theorem delta_prefix_plus_in_range (s : State.t) :
  0 <= State.uplift s < 1 ->
  0 <= State.fundedCap s ->
  0 <= State.apptRate s ->
  delta_prefix (Out.deltaAppts (Console.out s)) = "+".
Proof.
  intros Hu Hcap Hr.
  pose proof (deltaAppts_nonneg s Hu Hcap Hr) as H.
  unfold delta_prefix.
  destruct (Rle_dec 0 (Out.deltaAppts (Console.out s))); [reflexivity |].
  contradiction.
Qed.

Lemma delta_prefix_plus_in_range_witness :
  delta_prefix (Out.deltaAppts (Console.out st_initial)) = "+".
Proof.
  apply (delta_prefix_plus_in_range st_initial); simpl; lra.
Defined.

(** ** The test harness *)

Lemma approx_true (a b e : R) :
  - e < a - b < e -> Harness.approx a b e = true.
Proof.
  intros [H1 H2]. unfold Harness.approx.
  destruct (Rlt_dec (Rabs (a - b)) e) as [H | H]; [reflexivity |].
  exfalso. apply H. apply Rabs_def1; lra.
Qed.

Lemma approx_false (a b e : R) :
  e <= a - b \/ a - b <= - e -> Harness.approx a b e = false.
Proof.
  intros H. unfold Harness.approx.
  destruct (Rlt_dec (Rabs (a - b)) e) as [Hlt | Hlt]; [| reflexivity].
  exfalso. apply Rabs_def2 in Hlt. lra.
Qed.

Lemma Math_round_eq (y : R) (k : Z) :
  IZR k - / 2 <= y < IZR k + / 2 -> Math_round y = IZR k.
Proof.
  intros [H1 H2]. unfold Math_round.
  rewrite <- (Int_part_spec (y + / 2) k); [reflexivity |].
  split; lra.
Qed.

Lemma strict_eq_true (x y : R) : x = y -> strict_eq x y = true.
Proof.
  intros H. unfold strict_eq.
  destruct (Req_dec_T x y); [reflexivity | contradiction].
Qed.

Lemma gt_true (x y : R) : y < x -> gt x y = true.
Proof.
  intros H. unfold gt. destruct (Rlt_dec y x); [reflexivity | contradiction].
Qed.

(** Decides one assertion about an [approx] of a rounded value, given the
    integer the rounding yields. *)
Ltac round_to k :=
  rewrite (Math_round_eq _ k) by (split; lra);
  unfold Harness.eps;
  first [ apply approx_true; split; lra
        | apply approx_false; lra ].

Lemma TC1_outcome :
  Harness.TC1 =
  [ (true, "TC1 competitorCpl"); (true, "TC1 pixelCpl");
    (true, "TC1 competitorAppts"); (false, "TC1 pixelAppts") ].
Proof.
  unfold Harness.TC1. cbv zeta. repeat f_equal.
  - round_to 13500%Z.
  - round_to 11475%Z.
  - round_to 14815%Z.
  - round_to 17429%Z.
Qed.

Lemma TC2_outcome :
  Harness.TC2 =
  [ (true, "TC2 competitorLeads"); (true, "TC2 pixelLeads");
    (true, "TC2 competitorAppts"); (true, "TC2 pixelAppts") ].
Proof.
  unfold Harness.TC2. cbv zeta. repeat f_equal.
  - unfold Harness.eps. apply approx_true. split; lra.
  - round_to 285714%Z.
  - round_to 405%Z.
  - round_to 77143%Z.
Qed.

Lemma TC3_outcome :
  Harness.TC3 =
  [ (true, "TC3 leads"); (true, "TC3 appts"); (true, "TC3 cpa") ].
Proof.
  unfold Harness.TC3. cbv zeta.
  rewrite (gt0_false (0 / 50 * 0.2)) by lra.
  unfold Harness.eps.
  repeat f_equal; apply approx_true; split; lra.
Qed.

Lemma TC4_to_TC9_outcome :
  (Harness.TC4 ++ Harness.TC5 ++ Harness.TC6 ++ Harness.TC7
   ++ Harness.TC8 ++ Harness.TC9)%list =
  [ (true, "TC4 funded cap");
    (true, "TC5 pixel appts > competitor appts");
    (true, "TC6 funded clamps non-negative");
    (true, "TC7 waiting == pixel revenue");
    (true, "TC8 ACV link metro × commission");
    (true, "TC9 ACV reflects commission change") ].
Proof.
  unfold Harness.TC4, Harness.TC5, Harness.TC6, Harness.TC7,
    Harness.TC8, Harness.TC9.
  cbv zeta. simpl app. repeat f_equal.
  - apply strict_eq_true. rewrite Rmin_left by lra. reflexivity.
  - apply gt_true. lra.
  - apply strict_eq_true.
    rewrite !Rmax_left by lra. rewrite Rmin_right by lra. lra.
  - apply strict_eq_true. reflexivity.
  - apply strict_eq_true. lra.
  - apply strict_eq_true. lra.
Qed.

(** X18.  Of the seventeen assertions that the mount effect runs, exactly
    one has a false condition and is reported: the fourth assertion of the
    first test case, which expects platform appointments of 17.434 where
    the case's own inputs give 17.429 after rounding to three decimals.
    Every other assertion holds. *)
Theorem harness_reports_one_failure :
  length Harness.assertions = 17%nat
  /\ Harness.failed = ["TC1 pixelAppts"].
Proof.
  unfold Harness.failed, Harness.assertions.
  rewrite TC4_to_TC9_outcome, TC1_outcome, TC2_outcome, TC3_outcome.
  split; reflexivity.
Qed.

(** ** The funnel *)

(** X19.  With an appointment rate and a close rate in [0, 1], each
    scenario's funnel only narrows: closed deals are at most the
    appointments, appointments at most the leads, and none of them is
    negative. *)
Theorem funnel_only_narrows (s : State.t) :
  0 <= State.apptRate s <= 1 ->
  0 <= State.closeRate s <= 1 ->
  (0 <= Out.competitorClosed (Console.out s)
   <= Out.competitorAppts (Console.out s)
   /\ Out.competitorAppts (Console.out s)
      <= Out.competitorLeads (Console.out s))
  /\ (0 <= Out.pixelClosed (Console.out s) <= Out.pixelAppts (Console.out s)
      /\ Out.pixelAppts (Console.out s) <= Out.pixelLeads (Console.out s)).
Proof.
  intros Hr Hk.
  pose proof (competitorLeads_nonneg s) as HC.
  pose proof (pixelLeads_nonneg s) as HP.
  change (Out.competitorClosed (Console.out s))
    with (Out.competitorAppts (Console.out s) * State.closeRate s).
  rewrite pixelClosed_eq, competitorAppts_eq, pixelAppts_eq.
  set (cl := Out.competitorLeads (Console.out s)) in *.
  set (pl := Out.pixelLeads (Console.out s)) in *.
  assert (0 <= cl * State.apptRate s <= cl) by nra.
  assert (0 <= pl * State.apptRate s <= pl) by nra.
  repeat split; nra.
Qed.

Lemma funnel_only_narrows_witness :
  Out.pixelClosed (Console.out st_initial)
  <= Out.pixelAppts (Console.out st_initial)
  /\ Out.pixelAppts (Console.out st_initial)
     <= Out.pixelLeads (Console.out st_initial).
Proof.
  destruct (funnel_only_narrows st_initial) as (_ & (_ & H1) & H2);
    try (simpl; lra).
  split; assumption.
Defined.
